(** * Ensembl Tark data provider: coordinate normalisation, contig
      resolution and transcript caching

    Shallow embedding of [cdot/hgvs/dataproviders/ensembl_tark_data_provider.py].

    - The values the provider receives from the archive are parsed JSON;
      they are modelled by [json], and Python's [None] is [JNull].
      JSON numbers are integers (coordinates, versions, strand); numbers
      with a fractional part are outside the model.
    - Python exceptions are the constructors of [exn]; a method is a
      function from the provider state to a result and a new state, and
      an exception keeps the mutations made before it was raised.
    - The remote archive is a function from the requests already issued
      and the requested URL to an HTTP response; every call of
      [requests.get] is appended to the request log of the state. *)

From Stdlib Require Import ZArith String Ascii List Lia DecimalString DecimalPos.
From stdpp Require Import gmap strings list fin_maps.

Set Warnings "-register-all".

Local Open Scope string_scope.
Local Open Scope Z_scope.

(** ** Python values and primitives *)

Module Py.

(** Parsed JSON.  An object keeps its bindings in insertion order; its
    keys are pairwise distinct, as in a Python dict, and a lookup takes
    the first binding of the key. *)
Inductive json : Type :=
| JNull
| JBool (b : bool)
| JInt (n : Z)
| JStr (s : string)
| JList (l : list json)
| JObj (kvs : list (string * json)).

(** Structured payload of the [HGVSDataNotAvailableError] messages, one
    constructor per raise site of the provider. *)
Inductive hgvs_message : Type :=
| MsgNoResults (tx_ac : string) (data : json)
| MsgNoTxInfo (tx_ac alt_ac alt_aln_method : string)
| MsgOnlySupports (alt_aln_method : string).

Inductive exn : Type :=
| HGVSDataNotAvailableError (msg : hgvs_message)
| ValueError (msg : string)
| TypeError
| KeyError (key : string)
| IndexError
| JSONDecodeError
| NotImplementedError.

Inductive result (A : Type) : Type :=
| OK (a : A)
| Raise (e : exn).
Arguments OK {A} a.
Arguments Raise {A} e.

Definition rbind {A B} (r : result A) (k : A -> result B) : result B :=
  match r with
  | OK a => k a
  | Raise e => Raise e
  end.

Declare Scope result_scope.
Delimit Scope result_scope with result.
Notation "x <-? r ; k" := (rbind r (fun x => k))
  (at level 100, r at next level, right associativity) : result_scope.

(** [bool(v)] *)
Definition truthy (v : json) : bool :=
  match v with
  | JNull => false
  | JBool b => b
  | JInt n => negb (n =? 0)
  | JStr s => negb (String.eqb s EmptyString)
  | JList l => match l with [] => false | _ => true end
  | JObj kvs => match kvs with [] => false | _ => true end
  end.

(** [len(v)]; strings are sequences of ASCII characters. *)
Definition len (v : json) : result Z :=
  match v with
  | JStr s => OK (Z.of_nat (String.length s))
  | JList l => OK (Z.of_nat (List.length l))
  | JObj kvs => OK (Z.of_nat (List.length kvs))
  | JNull | JBool _ | JInt _ => Raise TypeError
  end.

Fixpoint assoc (k : string) (kvs : list (string * json)) : option json :=
  match kvs with
  | [] => None
  | (k', v) :: rest => if String.eqb k k' then Some v else assoc k rest
  end.

(** [v[k]] for a string key [k] *)
Definition getitem (v : json) (k : string) : result json :=
  match v with
  | JObj kvs => match assoc k kvs with
                | Some x => OK x
                | None => Raise (KeyError k)
                end
  | _ => Raise TypeError
  end.

Definition string_of_ascii (c : ascii) : string := String c EmptyString.

(** [v[0]] *)
Definition getitem0 (v : json) : result json :=
  match v with
  | JList l => match l with
               | x :: _ => OK x
               | [] => Raise IndexError
               end
  | JStr s => match s with
              | String c _ => OK (JStr (string_of_ascii c))
              | EmptyString => Raise IndexError
              end
  | JObj _ => Raise (KeyError "0")
  | JNull | JBool _ | JInt _ => Raise TypeError
  end.

(** The items a [for] loop over [v] visits. *)
Definition iter (v : json) : result (list json) :=
  match v with
  | JList l => OK l
  | JStr s => OK (List.map (fun c => JStr (string_of_ascii c)) (list_ascii_of_string s))
  | JObj kvs => OK (List.map (fun kv => JStr (fst kv)) kvs)
  | JNull | JBool _ | JInt _ => Raise TypeError
  end.

(** The integer a value denotes in arithmetic ([bool] is a subclass of
    [int]). *)
Definition as_int (v : json) : option Z :=
  match v with
  | JInt n => Some n
  | JBool b => Some (if b then 1 else 0)
  | _ => None
  end.

(** [a - b] *)
Definition sub (a b : json) : result Z :=
  match as_int a, as_int b with
  | Some x, Some y => OK (x - y)
  | _, _ => Raise TypeError
  end.

(** [v == s] for a string [s] *)
Definition eq_str (v : json) (s : string) : bool :=
  match v with
  | JStr s' => String.eqb s' s
  | _ => false
  end.

(** [str(n)] for an integer *)
Definition str_of_int (n : Z) : string := NilZero.string_of_int (Z.to_int n).

(** [needle in hay] for two strings *)
Fixpoint contains (needle hay : string) : bool :=
  if String.prefix needle hay then true
  else match hay with
       | EmptyString => false
       | String _ rest => contains needle rest
       end.

(** [s.split(sep)] for a one-character separator *)
Fixpoint split_on (sep : ascii) (s : string) : list string :=
  match s with
  | EmptyString => [EmptyString]
  | String c rest =>
      if Ascii.eqb c sep then EmptyString :: split_on sep rest
      else match split_on sep rest with
           | [] => [string_of_ascii c]
           | p :: ps => String c p :: ps
           end
  end.

(** [sep.join(parts)] *)
Fixpoint join (sep : string) (parts : list string) : string :=
  match parts with
  | [] => EmptyString
  | [p] => p
  | p :: ps => p ++ sep ++ join sep ps
  end.

(** ASCII members of the characters [str.strip] and [int] skip. *)
Definition is_space (c : ascii) : bool :=
  let n := nat_of_ascii c in
  ((9 <=? n) && (n <=? 13) || (28 <=? n) && (n <=? 32))%nat.

Definition digit_of (c : ascii) : option Z :=
  let n := nat_of_ascii c in
  if ((48 <=? n) && (n <=? 57))%nat then Some (Z.of_nat n - 48) else None.

Fixpoint lstrip (s : string) : string :=
  match s with
  | String c rest => if is_space c then lstrip rest else s
  | EmptyString => EmptyString
  end.

Definition rev_string (s : string) : string :=
  string_of_list_ascii (List.rev (list_ascii_of_string s)).

Definition strip (s : string) : string :=
  rev_string (lstrip (rev_string (lstrip s))).

(** Decimal digits, single underscores allowed between two digits. *)
Fixpoint digits_value (after_digit : bool) (acc : Z) (s : string) : option Z :=
  match s with
  | EmptyString => if after_digit then Some acc else None
  | String c rest =>
      match digit_of c with
      | Some d => digits_value true (10 * acc + d) rest
      | None =>
          if Ascii.eqb c "_" && after_digit then digits_value false acc rest
          else None
      end
  end.

(** [int(s)] for a string, base 10 (ASCII input). *)
Definition int_of_str (s : string) : result Z :=
  let parsed :=
    match strip s with
    | String "-" body => option_map Z.opp (digits_value false 0 body)
    | String "+" body => digits_value false 0 body
    | body => digits_value false 0 body
    end in
  match parsed with
  | Some n => OK n
  | None => Raise (ValueError ("invalid literal for int() with base 10: '" ++ s ++ "'"))
  end.

(** [os.path.join(a, b)] (POSIX) *)
Definition os_path_join (a b : string) : string :=
  if String.prefix "/" b then b
  else if String.eqb a EmptyString || String.prefix "/" (rev_string a) then a ++ b
  else a ++ "/" ++ b.

(** [repr(s)] for a string of ASCII characters: single quotes unless the
    string has a single quote and no double quote. *)
Definition double_quote : ascii := ascii_of_nat 34.
Definition backslash : ascii := ascii_of_nat 92.

Definition hex_digit (n : nat) : ascii :=
  List.nth n (list_ascii_of_string "0123456789abcdef") "0"%char.

Definition escape_char (quote c : ascii) : string :=
  let n := nat_of_ascii c in
  if Ascii.eqb c quote || Ascii.eqb c backslash then String backslash (string_of_ascii c)
  else if (n =? 9)%nat then String backslash "t"
  else if (n =? 10)%nat then String backslash "n"
  else if (n =? 13)%nat then String backslash "r"
  else if (n <? 32)%nat || (n =? 127)%nat then
    String backslash (String "x" (String (hex_digit (n / 16)) (string_of_ascii (hex_digit (n mod 16)))))
  else string_of_ascii c.

Definition repr_str (s : string) : string :=
  let quote :=
    if contains "'" s && negb (contains (string_of_ascii double_quote) s)
    then double_quote else "'"%char in
  String quote
    (String.concat EmptyString (List.map (escape_char quote) (list_ascii_of_string s))
     ++ string_of_ascii quote).

(** [repr(v)] *)
Fixpoint repr (v : json) : string :=
  match v with
  | JNull => "None"
  | JBool true => "True"
  | JBool false => "False"
  | JInt n => str_of_int n
  | JStr s => repr_str s
  | JList l => "[" ++ join ", " (List.map repr l) ++ "]"
  | JObj kvs =>
      "{" ++ join ", " (List.map (fun kv => let '(k, x) := kv in repr_str k ++ ": " ++ repr x) kvs)
      ++ "}"
  end.

(** [str(v)], which is what an f-string puts in place of [{v}]. *)
Definition str (v : json) : string :=
  match v with
  | JStr s => s
  | _ => repr v
  end.

End Py.

Import Py.
Local Open Scope result_scope.

(** ** The normalised records the provider hands out *)

(** The [exon_data] dict of [get_tx_exons]. *)
Module ExonData.
Record t : Type := mk {
  tx_ac : string;
  alt_ac : string;
  alt_strand : json;
  alt_aln_method : string;
  ord : json;
  tx_start_i : Z;
  tx_end_i : Z;
  alt_start_i : json;
  alt_end_i : json;
  cigar : string
}.
End ExonData.

(** The dict of [_get_transcript_info], and what [get_tx_info] adds. *)
Module TxInfo.
Record t : Type := mk {
  hgnc : json;
  cds_start_i : option Z;
  cds_end_i : option Z;
  tx_ac : option string;
  alt_ac : option string;
  alt_aln_method : option string
}.
End TxInfo.

(** ** The provider *)

Module EnsemblTark.

(** What the provider reads of a [requests] response: [response.ok],
    [response.headers.get('Content-Type')] and [response.json()], which
    raises when the body is not JSON. *)
Record response : Type := {
  ok : bool;
  content_type : option string;
  json_body : option json
}.

(** The attributes of [self].  [assembly_maps] is a dict whose order is
    used (the supported assemblies of the error messages), so it keeps
    its bindings in insertion order. *)
Record provider : Type := {
  base_url : string;
  transcript_results : gmap string json;
  assembly_maps : list (string * gmap string string);
  name_to_assembly_maps : list (string * gmap string string);
  assembly_by_contig : gmap string string
}.

(** The provider and the requests issued so far, most recent first. *)
Record state : Type := {
  self : provider;
  requests_log : list string
}.

Definition NCBI_ALN_METHOD : string := "splign".
Definition required_version : string := "1.1".

(** A method: state in, result and state out. *)
Definition M (A : Type) : Type := state -> result A * state.

Definition ret {A} (a : A) : M A := fun s => (OK a, s).
Definition raise {A} (e : exn) : M A := fun s => (Raise e, s).
Definition lift {A} (r : result A) : M A := fun s => (r, s).
Definition gets {A} (f : provider -> A) : M A := fun s => (OK (f (self s)), s).
Definition bind {A B} (m : M A) (k : A -> M B) : M B :=
  fun s => match m s with
           | (OK a, s') => k a s'
           | (Raise e, s') => (Raise e, s')
           end.

Declare Scope method_scope.
Delimit Scope method_scope with method.
Notation "x <- m ;; k" := (bind m (fun x => k))
  (at level 100, m at next level, right associativity) : method_scope.
Notation "m ;; k" := (bind m (fun _ => k))
  (at level 100, right associativity) : method_scope.
Local Open Scope method_scope.

(** [d[k] = v] on an insertion-ordered dict *)
Fixpoint dict_set {V} (k : string) (v : V) (d : list (string * V)) : list (string * V) :=
  match d with
  | [] => [(k, v)]
  | (k', v') :: rest =>
      if String.eqb k k' then (k, v) :: rest else (k', v') :: dict_set k v rest
  end.

(** The provider with [self.transcript_results] replaced. *)
Definition with_transcript_results (p : provider) (cache : gmap string json) : provider :=
  {| base_url := base_url p;
     transcript_results := cache;
     assembly_maps := assembly_maps p;
     name_to_assembly_maps := name_to_assembly_maps p;
     assembly_by_contig := assembly_by_contig p |}.

(** [self.transcript_results[tx_ac] = results] *)
Definition store_transcript_results (tx_ac : string) (results : json) : M unit :=
  fun s =>
    (OK tt,
     {| self := with_transcript_results (self s)
                  (<[tx_ac := results]> (transcript_results (self s)));
        requests_log := requests_log s |}).

Section Provider.

(** The static assembly directories of [cdot.hgvs.dataproviders], which
    raise for an assembly they do not know. *)
Variable get_ac_name_map : string -> result (gmap string string).
Variable get_name_ac_map : string -> result (gmap string string).

(** The remote archive behind [requests.get]: the response to a URL,
    given the requests issued before it. *)
Variable requests_get : list string -> string -> response.

(** The first loop of [__init__]. *)
Fixpoint load_assemblies (assemblies : list string)
    (maps names : list (string * gmap string string))
  : result (list (string * gmap string string) * list (string * gmap string string)) :=
  match assemblies with
  | [] => OK (maps, names)
  | assembly_name :: rest =>
      ac_name <-? get_ac_name_map assembly_name;
      name_ac <-? get_name_ac_map assembly_name;
      load_assemblies rest (dict_set assembly_name ac_name maps)
                           (dict_set assembly_name name_ac names)
  end.

(** The second loop of [__init__]:
    [assembly_by_contig.update({contig: assembly_name for contig in contig_map.keys()})]. *)
Fixpoint index_contigs (items : list (string * gmap string string))
    (by_contig : gmap string string) : gmap string string :=
  match items with
  | [] => by_contig
  | (assembly_name, contig_map) :: rest =>
      index_contigs rest (((fun _ => assembly_name) <$> contig_map) ∪ by_contig)
  end.

(** The constructor: the attributes it sets.  [seqfetcher] is not kept.
    [mode] and [cache] go to the constructor of the base class, which is
    not part of this file; it wraps public methods of the instance
    ([get_tx_info], [get_tx_exons], [get_tx_for_gene], ...) in memoising
    decorators, so a repeated identical call on an instance can be
    answered without the method being run.  The definitions of this
    module are the methods themselves: what happens when one is run. *)
Definition __init__ (assemblies : option (list string)) : result provider :=
  let assemblies :=
    match assemblies with
    | None => ["GRCh37"; "GRCh38"]
    | Some l => l
    end in
  loaded <-? load_assemblies assemblies [] [];
  OK {| base_url := "https://tark.ensembl.org/api";
        transcript_results := ∅;
        assembly_maps := fst loaded;
        name_to_assembly_maps := snd loaded;
        assembly_by_contig := index_contigs (fst loaded) ∅ |}.

(** [requests.get(url)]: the request is issued and logged. *)
Definition http_get (url : string) : M response :=
  fun s =>
    (OK (requests_get (requests_log s) url),
     {| self := self s; requests_log := url :: requests_log s |}).

Definition _get_from_url (url : string) : M json :=
  response <- http_get url;;
  if ok response then
    match content_type response with
    | None => raise TypeError
    | Some header =>
        if contains "application/json" header then
          match json_body response with
          | Some data => ret data
          | None => raise JSONDecodeError
          end
        else
          raise (ValueError ("Non-json response received for '" ++ url
                             ++ "' - are you behind a firewall?"))
    end
  else ret JNull.

Definition _get_transcript_id_and_version (transcript_accession : string)
  : result (string * option Z) :=
  match split_on "." transcript_accession with
  | [identifier; version] =>
      version <-? int_of_str version;
      OK (identifier, Some version)
  | _ => OK (transcript_accession, None)
  end.

(** [f"{v}"] for the version of the query *)
Definition format_version (version : option Z) : string :=
  match version with
  | Some n => str_of_int n
  | None => "None"
  end.

Definition transcript_url (base : string) (stable_id : string) (version : option Z) : string :=
  os_path_join base "transcript/?"
  ++ join "&" [ "stable_id=" ++ stable_id;
                "stable_id_version=" ++ format_version version;
                "expand_all=true" ].

Definition _get_transcript_results (tx_ac : string) : M json :=
  cached <- gets (fun p => transcript_results p !! tx_ac);;
  match cached with
  | Some results => ret results
  | None =>
      base <- gets base_url;;
      id_version <- lift (_get_transcript_id_and_version tx_ac);;
      let url := transcript_url base (fst id_version) (snd id_version) in
      data <- _get_from_url url;;
      results <- lift (getitem data "results");;
      if truthy results then
        n <- lift (len results);;
        if 1 <=? n then
          store_transcript_results tx_ac results;;
          ret results
        else raise (HGVSDataNotAvailableError (MsgNoResults tx_ac data))
      else raise (HGVSDataNotAvailableError (MsgNoResults tx_ac data))
  end.

(** The loop of [_get_transcript_for_contig]. *)
Fixpoint first_for_assembly (transcripts : list json) (assembly : string) : result json :=
  match transcripts with
  | [] => OK JNull
  | transcript :: rest =>
      a <-? getitem transcript "assembly";
      name <-? getitem a "assembly_name";
      if eq_str name assembly then OK transcript
      else first_for_assembly rest assembly
  end.

Definition _get_transcript_for_contig (p : provider) (transcript_results : json)
    (alt_ac : string) : result json :=
  match assembly_by_contig p !! alt_ac with
  | None =>
      let supported_assemblies := join ", " (List.map fst (assembly_maps p)) in
      Raise (ValueError ("Contig '" ++ alt_ac ++ "' not supported. Supported assemblies: "
                         ++ supported_assemblies))
  | Some assembly =>
      transcripts <-? iter transcript_results;
      first_for_assembly transcripts assembly
  end.

Definition data_version : string := required_version.
Definition schema_version : string := required_version.

(** [sum([ex["loc_end"] - ex["loc_start"] + 1 for ex in exons])] *)
Fixpoint exon_lengths (exons : list json) : result (list Z) :=
  match exons with
  | [] => OK []
  | ex :: rest =>
      loc_end <-? getitem ex "loc_end";
      loc_start <-? getitem ex "loc_start";
      d <-? sub loc_end loc_start;
      ls <-? exon_lengths rest;
      OK (d + 1 :: ls)
  end.

Definition sum (l : list Z) : Z := List.fold_left Z.add l 0.

Definition _get_cds_start_end (transcript : json) : result (option Z * option Z) :=
  three_prime_utr_seq <-? getitem transcript "three_prime_utr_seq";
  five_prime_utr_seq <-? getitem transcript "five_prime_utr_seq";
  if truthy three_prime_utr_seq && truthy five_prime_utr_seq then
    exons <-? getitem transcript "exons";
    exons <-? iter exons;
    lengths <-? exon_lengths exons;
    let sequence_length := sum lengths in
    cds_start_i <-? len five_prime_utr_seq;
    n3 <-? len three_prime_utr_seq;
    let cds_end_i := sequence_length - n3 in
    OK (Some cds_start_i, Some cds_end_i)
  else OK (None, None).

(** The pure rest of [get_transcript_sequence], once the results are known. *)
Definition transcript_sequence_of (results : json) : result json :=
  if truthy results then
    transcript <-? getitem0 results;
    sequence <-? getitem transcript "sequence";
    getitem sequence "sequence"
  else OK JNull.

Definition get_transcript_sequence (ac : string) : M json :=
  results <- _get_transcript_results ac;;
  lift (transcript_sequence_of results).

(** The body of the loop of [get_tx_exons] for one exon. *)
Definition exon_alignment (tx_ac alt_ac : string) (alt_strand : json)
    (alt_aln_method : string) (exon_transcript_pos : Z) (exon : json)
  : result ExonData.t :=
  loc_end <-? getitem exon "loc_end";
  loc_start <-? getitem exon "loc_start";
  length <-? sub loc_end loc_start;
  let tx_start_i := exon_transcript_pos in
  let tx_end_i := exon_transcript_pos + length in
  ord <-? getitem exon "exon_order";
  alt_start_i <-? getitem exon "loc_start";
  alt_end_i <-? getitem exon "loc_end";
  OK {| ExonData.tx_ac := tx_ac;
        ExonData.alt_ac := alt_ac;
        ExonData.alt_strand := alt_strand;
        ExonData.alt_aln_method := alt_aln_method;
        ExonData.ord := ord;
        ExonData.tx_start_i := tx_start_i;
        ExonData.tx_end_i := tx_end_i;
        ExonData.alt_start_i := alt_start_i;
        ExonData.alt_end_i := alt_end_i;
        ExonData.cigar := str_of_int length ++ "=" |}.

(** The loop of [get_tx_exons].  Its variables are [exon_transcript_pos],
    which no statement of the loop assigns, and the list [tx_exons]. *)
Fixpoint exons_loop (tx_ac alt_ac : string) (alt_strand : json)
    (alt_aln_method : string) (exon_transcript_pos : Z)
    (exons : list json) (tx_exons : list ExonData.t) : result (list ExonData.t) :=
  match exons with
  | [] => OK tx_exons
  | exon :: rest =>
      exon_data <-? exon_alignment tx_ac alt_ac alt_strand alt_aln_method
                      exon_transcript_pos exon;
      exons_loop tx_ac alt_ac alt_strand alt_aln_method exon_transcript_pos
        rest (tx_exons ++ [exon_data])
  end.

Definition _check_alt_aln_method (alt_aln_method : string) : M unit :=
  if negb (String.eqb alt_aln_method NCBI_ALN_METHOD) then
    raise (HGVSDataNotAvailableError (MsgOnlySupports NCBI_ALN_METHOD))
  else ret tt.

(** [get_tx_exons] from the cached results on; it reads the assembly
    directory of the provider and changes nothing. *)
Definition tx_exons_of (p : provider) (tx_ac alt_ac alt_aln_method : string)
    (transcript_results : json) : result (option (list ExonData.t)) :=
  if negb (truthy transcript_results) then OK None
  else
    transcript <-? _get_transcript_for_contig p transcript_results alt_ac;
    alt_strand <-? getitem transcript "loc_strand";
    let exon_transcript_pos := 0 in
    exons <-? getitem transcript "exons";
    exons <-? iter exons;
    tx_exons <-? exons_loop tx_ac alt_ac alt_strand alt_aln_method
                   exon_transcript_pos exons [];
    OK (Some tx_exons).

Definition get_tx_exons (tx_ac alt_ac alt_aln_method : string)
  : M (option (list ExonData.t)) :=
  _check_alt_aln_method alt_aln_method;;
  transcript_results <- _get_transcript_results tx_ac;;
  p <- gets (fun p => p);;
  lift (tx_exons_of p tx_ac alt_ac alt_aln_method transcript_results).

Definition _get_transcript_info (transcript : json) : result TxInfo.t :=
  genes <-? getitem transcript "genes";
  gene <-? getitem0 genes;
  gene_name <-? getitem gene "name";
  cds <-? _get_cds_start_end transcript;
  OK {| TxInfo.hgnc := gene_name;
        TxInfo.cds_start_i := fst cds;
        TxInfo.cds_end_i := snd cds;
        TxInfo.tx_ac := None;
        TxInfo.alt_ac := None;
        TxInfo.alt_aln_method := None |}.

(** [get_tx_info] from the cached results on. *)
Definition tx_info_of (p : provider) (tx_ac alt_ac alt_aln_method : string)
    (transcript_results : json) : result TxInfo.t :=
  if truthy transcript_results then
    transcript <-? _get_transcript_for_contig p transcript_results alt_ac;
    tx_info <-? _get_transcript_info transcript;
    OK {| TxInfo.hgnc := TxInfo.hgnc tx_info;
          TxInfo.cds_start_i := TxInfo.cds_start_i tx_info;
          TxInfo.cds_end_i := TxInfo.cds_end_i tx_info;
          TxInfo.tx_ac := Some tx_ac;
          TxInfo.alt_ac := Some alt_ac;
          TxInfo.alt_aln_method := Some NCBI_ALN_METHOD |}
  else
    Raise (HGVSDataNotAvailableError (MsgNoTxInfo tx_ac alt_ac alt_aln_method)).

Definition get_tx_info (tx_ac alt_ac alt_aln_method : string) : M TxInfo.t :=
  _check_alt_aln_method alt_aln_method;;
  transcript_results <- _get_transcript_results tx_ac;;
  p <- gets (fun p => p);;
  lift (tx_info_of p tx_ac alt_ac alt_aln_method transcript_results).

(** The provider just after construction, before any request. *)
Definition initial_state (p : provider) : state :=
  {| self := p; requests_log := [] |}.

(** The calls that reach the transcript cache. *)
Inductive call : Type :=
| CallTxInfo (tx_ac alt_ac alt_aln_method : string)
| CallTxExons (tx_ac alt_ac alt_aln_method : string)
| CallTranscriptSequence (ac : string)
| CallTranscriptResults (tx_ac : string).

Definition run_call (c : call) (s : state) : state :=
  match c with
  | CallTxInfo tx_ac alt_ac m => snd (get_tx_info tx_ac alt_ac m s)
  | CallTxExons tx_ac alt_ac m => snd (get_tx_exons tx_ac alt_ac m s)
  | CallTranscriptSequence ac => snd (get_transcript_sequence ac s)
  | CallTranscriptResults tx_ac => snd (_get_transcript_results tx_ac s)
  end.

(** The state after a sequence of calls, whatever each returned or raised. *)
Definition run_calls (calls : list call) (s : state) : state :=
  List.fold_left (fun s c => run_call c s) calls s.

(** [d.get(k)] on an insertion-ordered dict *)
Fixpoint dict_get {V} (k : string) (d : list (string * V)) : option V :=
  match d with
  | [] => None
  | (k', v) :: rest => if String.eqb k k' then Some v else dict_get k rest
  end.

(** [d[key]] on a dict with string keys, for a key that is any parsed
    value: lists and objects are not hashable, other values are absent. *)
Definition dict_getitem {V} (d : list (string * V)) (key : json) : result V :=
  match key with
  | JStr k => match dict_get k d with
              | Some v => OK v
              | None => Raise (KeyError k)
              end
  | JList _ | JObj _ => Raise TypeError
  | JNull | JBool _ | JInt _ => Raise (KeyError (repr key))
  end.

Definition get_assembly_map (p : provider) (assembly_name : string)
  : result (gmap string string) :=
  match dict_get assembly_name (assembly_maps p) with
  | None =>
      let supported_assemblies := join ", " (List.map fst (assembly_maps p)) in
      Raise (ValueError ("Assembly '" ++ assembly_name
                         ++ "' not supported. Supported assemblies: "
                         ++ supported_assemblies))
  | Some assembly_map => OK assembly_map
  end.

Definition get_acs_for_protein_seq (seq : string) : M json := ret JNull.

Definition get_gene_info (gene : string) : M json := raise NotImplementedError.

Definition get_similar_transcripts (tx_ac : string) : M json := raise NotImplementedError.

Definition get_tx_for_region (alt_ac alt_aln_method : string) (start_i end_i : Z) : M json :=
  raise NotImplementedError.

Definition get_alignments_for_region (alt_ac : string) (start_i end_i : Z)
    (alt_aln_method : option string) : M json :=
  let alt_aln_method :=
    match alt_aln_method with
    | None => NCBI_ALN_METHOD
    | Some m => m
    end in
  get_tx_for_region alt_ac alt_aln_method start_i end_i.

Definition gene_search_url (base gene : string) : string :=
  os_path_join base "transcript/search/?"
  ++ join "&" [ "identifier_field=" ++ gene; "expand=exons,genes,sequence" ].

(** The body of the loop of [get_tx_for_gene] for one transcript. *)
Definition gene_transcript (p : provider) (gene : string) (transcript : json)
  : result TxInfo.t :=
  cds <-? _get_cds_start_end transcript;
  assembly <-? getitem transcript "assembly";
  name_to_ac_map <-? dict_getitem (name_to_assembly_maps p) assembly;
  alt_ac <-? match (name_to_ac_map : gmap string string) !! "loc_region" with
             | Some ac => OK ac
             | None => Raise (KeyError "loc_region")
             end;
  transcript_id <-? getitem transcript "stable_id";
  version <-? getitem transcript "stable_id_version";
  let tx_ac := str transcript_id ++ "." ++ str version in
  OK {| TxInfo.hgnc := JStr gene;
        TxInfo.cds_start_i := fst cds;
        TxInfo.cds_end_i := snd cds;
        TxInfo.tx_ac := Some tx_ac;
        TxInfo.alt_ac := Some alt_ac;
        TxInfo.alt_aln_method := Some "splign" |}.

(** The loop of [get_tx_for_gene]. *)
Fixpoint gene_transcripts (p : provider) (gene : string) (transcripts : list json)
    (tx_list : list TxInfo.t) : result (list TxInfo.t) :=
  match transcripts with
  | [] => OK tx_list
  | transcript :: rest =>
      entry <-? gene_transcript p gene transcript;
      gene_transcripts p gene rest (tx_list ++ [entry])
  end.

(** [get_tx_for_gene] from the answer of the archive on. *)
Definition tx_for_gene_of (p : provider) (gene : string) (results : json)
  : result (list TxInfo.t) :=
  if truthy results then
    transcripts <-? iter results;
    gene_transcripts p gene transcripts []
  else OK [].

Definition get_tx_for_gene (gene : string) : M (list TxInfo.t) :=
  base <- gets base_url;;
  let url := gene_search_url base gene in
  results <- _get_from_url url;;
  p <- gets (fun p => p);;
  lift (tx_for_gene_of p gene results).

End Provider.
End EnsemblTark.

(** ** A mocked archive: one transcript annotated on two builds *)

Module Example.
Import EnsemblTark.

Definition ac_name_map (assembly_name : string) : result (gmap string string) :=
  if String.eqb assembly_name "GRCh37" then OK {[ "CM000663.1" := "1"; "NC_000001.10" := "1" ]}
  else if String.eqb assembly_name "GRCh38" then OK {[ "CM000663.2" := "1"; "NC_000001.11" := "1" ]}
  else Raise (KeyError assembly_name).

Definition name_ac_map (assembly_name : string) : result (gmap string string) :=
  if String.eqb assembly_name "GRCh37" then OK {[ "1" := "NC_000001.10" ]}
  else if String.eqb assembly_name "GRCh38" then OK {[ "1" := "NC_000001.11" ]}
  else Raise (KeyError assembly_name).

Definition exon (loc_start loc_end exon_order : Z) : json :=
  JObj [ ("loc_start", JInt loc_start);
         ("loc_end", JInt loc_end);
         ("exon_order", JInt exon_order) ].

Definition transcript (assembly_name : string) (exons : list json)
    (five_prime three_prime : json) : json :=
  JObj [ ("stable_id", JStr "ENST00000380152");
         ("stable_id_version", JInt 7);
         ("assembly", JObj [ ("assembly_name", JStr assembly_name) ]);
         ("loc_strand", JInt 1);
         ("exons", JList exons);
         ("five_prime_utr_seq", five_prime);
         ("three_prime_utr_seq", three_prime);
         ("genes", JList [ JObj [ ("name", JStr "BRCA2") ] ]) ].

Definition exons38 : list json := [ exon 100 199 1; exon 300 349 2 ].
Definition exons37 : list json := [ exon 1100 1199 1; exon 1300 1349 2 ].

Definition record37 : json := transcript "GRCh37" exons37 (JStr "ACGTA") (JStr "TTT").
Definition record38 : json := transcript "GRCh38" exons38 (JStr "ACGTA") (JStr "TTT").

(** A record whose UTR sequences are longer than its exons. *)
Definition record_short : json :=
  transcript "GRCh38" [ exon 100 101 1 ] (JStr "ACGTA") (JStr "TTT").

(** A record without UTR annotation. *)
Definition record_no_utr : json := transcript "GRCh38" exons38 JNull (JStr "TTT").

Definition json_response (data : json) : response :=
  {| ok := true; content_type := Some "application/json"; json_body := Some data |}.

(** An archive that answers every query with both records, the GRCh38
    one second. *)
Definition archive (log : list string) (url : string) : response :=
  json_response (JObj [ ("count", JInt 2); ("results", JList [ record37; record38 ]) ]).

(** An archive that only knows the GRCh38 record. *)
Definition archive38 (log : list string) (url : string) : response :=
  json_response (JObj [ ("count", JInt 1); ("results", JList [ record38 ]) ]).

(** An archive that answers 404 to everything. *)
Definition archive_not_found (log : list string) (url : string) : response :=
  {| ok := false; content_type := Some "application/json"; json_body := None |}.

(** An archive that finds nothing: an empty results collection. *)
Definition archive_empty (log : list string) (url : string) : response :=
  json_response (JObj [ ("count", JInt 0); ("results", JList []) ]).

(** An archive whose answer has no "results" member. *)
Definition archive_no_results (log : list string) (url : string) : response :=
  json_response (JObj [ ("detail", JStr "Not found.") ]).

(** A proxy that answers without a Content-Type header. *)
Definition archive_no_header (log : list string) (url : string) : response :=
  {| ok := true; content_type := None; json_body := None |}.

Definition tark : provider :=
  match __init__ ac_name_map name_ac_map None with
  | OK p => p
  | Raise _ =>
      {| base_url := EmptyString; transcript_results := ∅; assembly_maps := [];
         name_to_assembly_maps := []; assembly_by_contig := ∅ |}
  end.

Definition fresh : state := initial_state tark.

Definition tx_ac : string := "ENST00000380152.7".
Definition contig38 : string := "CM000663.2".
Definition contig37 : string := "CM000663.1".

(** What [get_tx_exons] answers for [tx_ac] on [contig38]. *)
Definition alignment (ord tx_start_i tx_end_i alt_start_i alt_end_i : Z) (cigar : string)
  : ExonData.t :=
  {| ExonData.tx_ac := tx_ac;
     ExonData.alt_ac := contig38;
     ExonData.alt_strand := JInt 1;
     ExonData.alt_aln_method := NCBI_ALN_METHOD;
     ExonData.ord := JInt ord;
     ExonData.tx_start_i := tx_start_i;
     ExonData.tx_end_i := tx_end_i;
     ExonData.alt_start_i := JInt alt_start_i;
     ExonData.alt_end_i := JInt alt_end_i;
     ExonData.cigar := cigar |}.

Definition alignment1 : ExonData.t := alignment 1 0 99 100 199 "99=".
Definition alignment2 : ExonData.t := alignment 2 0 49 300 349 "49=".

(** The state the first lookup of [tx_ac] leaves behind. *)
Definition after_lookup : state :=
  snd (_get_transcript_results archive tx_ac fresh).

(** A record as the gene search lists it, with the assembly as a name. *)
Definition gene_record : json :=
  JObj [ ("stable_id", JStr "ENST00000380152");
         ("stable_id_version", JInt 7);
         ("assembly", JStr "GRCh38");
         ("exons", JList exons38);
         ("five_prime_utr_seq", JStr "ACGTA");
         ("three_prime_utr_seq", JStr "TTT") ].

(** An archive that answers the gene search with a list of one record. *)
Definition archive_gene (log : list string) (url : string) : response :=
  json_response (JList [ gene_record ]).

(** Name directories that have an entry called "loc_region". *)
Definition name_ac_map_region (assembly_name : string) : result (gmap string string) :=
  if String.eqb assembly_name "GRCh37" then OK {[ "loc_region" := "NC_000013.10" ]}
  else if String.eqb assembly_name "GRCh38" then OK {[ "loc_region" := "NC_000013.11" ]}
  else Raise (KeyError assembly_name).

(** Accession directories in which both assemblies have the mitochondrion. *)
Definition ac_name_map_shared (assembly_name : string) : result (gmap string string) :=
  if String.eqb assembly_name "GRCh37" then OK {[ "NC_012920.1" := "MT"; "NC_000001.10" := "1" ]}
  else if String.eqb assembly_name "GRCh38" then OK {[ "NC_012920.1" := "MT"; "NC_000001.11" := "1" ]}
  else Raise (KeyError assembly_name).

(** A record that carries its sequence, and a state that has it cached. *)
Definition record_with_sequence : json :=
  JObj [ ("stable_id", JStr "ENST00000380152");
         ("assembly", JObj [ ("assembly_name", JStr "GRCh38") ]);
         ("sequence", JObj [ ("sequence", JStr "ACGTAGGCCTTT") ]) ].

Definition archive_sequence (log : list string) (url : string) : response :=
  json_response (JObj [ ("results", JList [ record_with_sequence ]) ]).

Definition with_sequence : state :=
  snd (_get_transcript_results archive_sequence tx_ac fresh).

Definition empty_provider : provider :=
  {| base_url := EmptyString; transcript_results := ∅; assembly_maps := [];
     name_to_assembly_maps := []; assembly_by_contig := ∅ |}.

Definition provider_of (r : result provider) : provider :=
  match r with
  | OK p => p
  | Raise _ => empty_provider
  end.

Definition tark_region : provider := provider_of (__init__ ac_name_map name_ac_map_region None).
Definition tark_shared : provider := provider_of (__init__ ac_name_map_shared name_ac_map None).

End Example.

(** ** Predicates used by the statements *)

Module Spec.
Import EnsemblTark.

(** Transcript and genomic span agree, and the cigar is that span. *)
Definition span_consistent (e : ExonData.t) : Prop :=
  exists a b : Z,
    as_int (ExonData.alt_start_i e) = Some a
    /\ as_int (ExonData.alt_end_i e) = Some b
    /\ ExonData.tx_end_i e - ExonData.tx_start_i e = b - a
    /\ ExonData.cigar e = str_of_int (b - a) ++ "=".

(** An alignment with the given transcript interval, genomic interval
    and cigar. *)
Definition is_alignment (e : ExonData.t) (tx_start tx_end alt_start alt_end : Z)
    (cigar : string) : Prop :=
  ExonData.tx_start_i e = tx_start
  /\ ExonData.tx_end_i e = tx_end
  /\ ExonData.alt_start_i e = JInt alt_start
  /\ ExonData.alt_end_i e = JInt alt_end
  /\ ExonData.cigar e = cigar.

(** Consecutive alignments meet: each ends where the next starts. *)
Fixpoint contiguous (tx_exons : list ExonData.t) : Prop :=
  match tx_exons with
  | e1 :: ((e2 :: _) as rest) =>
      ExonData.tx_end_i e1 = ExonData.tx_start_i e2 /\ contiguous rest
  | _ => True
  end.

(** The attributes of the provider that are set at construction and
    read afterwards. *)
Definition directory (p : provider)
  : string * list (string * gmap string string) * list (string * gmap string string)
    * gmap string string :=
  (base_url p, assembly_maps p, name_to_assembly_maps p, assembly_by_contig p).

(** The contig is an accession of a configured assembly. *)
Definition configured (p : provider) (assembly contig : string) : Prop :=
  exists contig_map : gmap string string,
    (assembly, contig_map) ∈ assembly_maps p /\ is_Some (contig_map !! contig).

Definition covered (p : provider) (contig : string) : Prop :=
  exists assembly, configured p assembly contig.

(** [transcript["assembly"]["assembly_name"]] *)
Definition assembly_name_of (transcript : json) : result json :=
  (a <-? getitem transcript "assembly";
   getitem a "assembly_name")%result.

Definition in_assembly (transcript : json) (assembly : string) : Prop :=
  assembly_name_of transcript = OK (JStr assembly).

Definition in_other_assembly (transcript : json) (assembly : string) : Prop :=
  exists name, assembly_name_of transcript = OK name /\ name <> JStr assembly.

(** The exons of a record carry integer genomic coordinates. *)
Definition exon_coordinates (exon : json) (coords : Z * Z) : Prop :=
  exists loc_start loc_end : json,
    getitem exon "loc_start" = OK loc_start
    /\ getitem exon "loc_end" = OK loc_end
    /\ as_int loc_start = Some (fst coords)
    /\ as_int loc_end = Some (snd coords).

(** Sum over the exons of [loc_end - loc_start + 1]. *)
Fixpoint total_exonic_length (coords : list (Z * Z)) : Z :=
  match coords with
  | [] => 0
  | (loc_start, loc_end) :: rest => (loc_end - loc_start + 1) + total_exonic_length rest
  end.

(** A UTR sequence that is absent (null) or empty. *)
Definition absent_or_empty (utr : json) : Prop := utr = JNull \/ utr = JStr EmptyString.

(** A results collection that is not empty: true as a condition, with a
    length of at least one. *)
Definition nonempty (results : json) : Prop :=
  truthy results = true /\ exists n, len results = OK n /\ 1 <= n.

Definition nonempty_list (results : json) : Prop :=
  exists record rest, results = JList (record :: rest).

(** The archive answers with a list (or null) under "results", as its
    interface says. *)
Definition results_are_lists (requests_get : list string -> string -> response) : Prop :=
  forall log url data results,
    json_body (requests_get log url) = Some data ->
    getitem data "results" = OK results ->
    results = JNull \/ exists records, results = JList records.

(** How many times a character occurs in a string. *)
Fixpoint occurrences (c : ascii) (s : string) : nat :=
  match s with
  | EmptyString => 0%nat
  | String c' rest => ((if Ascii.eqb c' c then 1 else 0) + occurrences c rest)%nat
  end.

(** The number a decimal numeral denotes, after the digits read so far. *)
Fixpoint uint_value (d : Decimal.uint) (acc : Z) : Z :=
  match d with
  | Decimal.Nil => acc
  | Decimal.D0 d => uint_value d (10 * acc + 0)
  | Decimal.D1 d => uint_value d (10 * acc + 1)
  | Decimal.D2 d => uint_value d (10 * acc + 2)
  | Decimal.D3 d => uint_value d (10 * acc + 3)
  | Decimal.D4 d => uint_value d (10 * acc + 4)
  | Decimal.D5 d => uint_value d (10 * acc + 5)
  | Decimal.D6 d => uint_value d (10 * acc + 6)
  | Decimal.D7 d => uint_value d (10 * acc + 7)
  | Decimal.D8 d => uint_value d (10 * acc + 8)
  | Decimal.D9 d => uint_value d (10 * acc + 9)
  end.

(** No character of the string is one that [strip] removes. *)
Definition no_space (s : string) : Prop :=
  Forall (fun c => is_space c = false) (list_ascii_of_string s).

(** The alignment carries the arguments of the call, the strand of the
    record and the order and genomic offsets of the exon, as they are. *)
Definition copies_exon (tx_ac alt_ac alt_aln_method : string) (alt_strand exon : json)
    (e : ExonData.t) : Prop :=
  ExonData.tx_ac e = tx_ac
  /\ ExonData.alt_ac e = alt_ac
  /\ ExonData.alt_aln_method e = alt_aln_method
  /\ ExonData.alt_strand e = alt_strand
  /\ getitem exon "exon_order" = OK (ExonData.ord e)
  /\ getitem exon "loc_start" = OK (ExonData.alt_start_i e)
  /\ getitem exon "loc_end" = OK (ExonData.alt_end_i e).

(** An exception of Python itself, not the data-not-available error of
    the provider. *)
Definition builtin_error (e : exn) : Prop :=
  match e with
  | HGVSDataNotAvailableError _ => False
  | _ => True
  end.

Definition raises_builtin {A} (r : result A) : Prop :=
  match r with
  | OK _ => True
  | Raise e => builtin_error e
  end.

(** The assemblies the constructor loads. *)
Definition requested (assemblies : option (list string)) : list string :=
  match assemblies with
  | None => ["GRCh37"; "GRCh38"]
  | Some l => l
  end.

End Spec.
Import Spec.

(** ** Properties *)

Import EnsemblTark.
Local Open Scope method_scope.

(** *** How the public operations decompose *)

Section Decomposition.
Variable requests_get : list string -> string -> response.

Lemma check_alt_aln_method_splign (s : state) :
  _check_alt_aln_method NCBI_ALN_METHOD s = (OK tt, s).
Proof. reflexivity. Qed.

Lemma check_alt_aln_method_other (alt_aln_method : string) (s : state) :
  alt_aln_method <> NCBI_ALN_METHOD ->
  _check_alt_aln_method alt_aln_method s
  = (Raise (HGVSDataNotAvailableError (MsgOnlySupports NCBI_ALN_METHOD)), s).
Proof.
  intros Hne. unfold _check_alt_aln_method.
  destruct (String.eqb_spec alt_aln_method NCBI_ALN_METHOD) as [Heq | _]; [contradiction |].
  reflexivity.
Qed.

(** A supported call is the cache step followed by a pure projection. *)
Lemma get_tx_exons_splign (tx_ac alt_ac : string) (s : state) :
  get_tx_exons requests_get tx_ac alt_ac NCBI_ALN_METHOD s
  = match _get_transcript_results requests_get tx_ac s with
    | (OK results, s') => (tx_exons_of (self s') tx_ac alt_ac NCBI_ALN_METHOD results, s')
    | (Raise e, s') => (Raise e, s')
    end.
Proof.
  unfold get_tx_exons, bind. rewrite check_alt_aln_method_splign.
  destruct (_get_transcript_results requests_get tx_ac s) as [[results | e] s']; reflexivity.
Qed.

Lemma get_tx_info_splign (tx_ac alt_ac : string) (s : state) :
  get_tx_info requests_get tx_ac alt_ac NCBI_ALN_METHOD s
  = match _get_transcript_results requests_get tx_ac s with
    | (OK results, s') => (tx_info_of (self s') tx_ac alt_ac NCBI_ALN_METHOD results, s')
    | (Raise e, s') => (Raise e, s')
    end.
Proof.
  unfold get_tx_info, bind. rewrite check_alt_aln_method_splign.
  destruct (_get_transcript_results requests_get tx_ac s) as [[results | e] s']; reflexivity.
Qed.

(** A call that returns was made with the supported method. *)
Lemma get_tx_exons_returns (tx_ac alt_ac alt_aln_method : string) (s s' : state)
    (out : option (list ExonData.t)) :
  get_tx_exons requests_get tx_ac alt_ac alt_aln_method s = (OK out, s') ->
  alt_aln_method = NCBI_ALN_METHOD
  /\ exists results,
       _get_transcript_results requests_get tx_ac s = (OK results, s')
       /\ tx_exons_of (self s') tx_ac alt_ac alt_aln_method results = OK out.
Proof.
  intros Hrun.
  destruct (String.eqb_spec alt_aln_method NCBI_ALN_METHOD) as [-> | Hne].
  - split; [reflexivity |]. rewrite get_tx_exons_splign in Hrun.
    destruct (_get_transcript_results requests_get tx_ac s) as [[results | e] s1];
      [| discriminate].
    exists results. injection Hrun as Hout Hs. subst s1. split; [reflexivity | exact Hout].
  - unfold get_tx_exons, bind in Hrun.
    rewrite (check_alt_aln_method_other _ _ Hne) in Hrun. discriminate.
Qed.

End Decomposition.

(** *** The exon loop *)

Section ExonLoop.
Variables (tx_ac alt_ac : string) (alt_strand : json) (alt_aln_method : string).

Lemma sub_ok (x y : json) (d : Z) :
  sub x y = OK d -> exists a b, as_int x = Some a /\ as_int y = Some b /\ d = a - b.
Proof.
  unfold sub. destruct (as_int x) as [a |], (as_int y) as [b |]; try discriminate.
  intros [= <-]. eauto.
Qed.

Lemma exon_alignment_span (pos : Z) (exon : json) (e : ExonData.t) :
  exon_alignment tx_ac alt_ac alt_strand alt_aln_method pos exon = OK e ->
  span_consistent e /\ ExonData.tx_start_i e = pos.
Proof.
  unfold exon_alignment, rbind.
  destruct (getitem exon "loc_end") as [loc_end |]; [| discriminate].
  destruct (getitem exon "loc_start") as [loc_start |]; [| discriminate].
  destruct (sub loc_end loc_start) as [d |] eqn:Hsub; [| discriminate].
  destruct (getitem exon "exon_order") as [ord |]; [| discriminate].
  intros [= <-]. unfold span_consistent. cbn [ExonData.tx_start_i ExonData.tx_end_i
    ExonData.alt_start_i ExonData.alt_end_i ExonData.cigar].
  destruct (sub_ok _ _ _ Hsub) as (b & a & Hb & Ha & ->).
  split; [| reflexivity].
  exists a, b. split; [exact Ha |]. split; [exact Hb |]. split; [lia | reflexivity].
Qed.

Lemma exons_loop_Forall (P : ExonData.t -> Prop) (pos : Z) :
  (forall exon e,
      exon_alignment tx_ac alt_ac alt_strand alt_aln_method pos exon = OK e -> P e) ->
  forall (exons : list json) (acc out : list ExonData.t),
    exons_loop tx_ac alt_ac alt_strand alt_aln_method pos exons acc = OK out ->
    Forall P acc -> Forall P out.
Proof.
  intros Hbody exons. induction exons as [| exon rest IH]; intros acc out Hloop Hacc.
  - injection Hloop as <-. exact Hacc.
  - cbn in Hloop. unfold rbind in Hloop.
    destruct (exon_alignment tx_ac alt_ac alt_strand alt_aln_method pos exon)
      as [e |] eqn:He; [| discriminate].
    apply (IH _ _ Hloop). apply Forall_app. split; [exact Hacc |].
    constructor; [eauto | constructor].
Qed.

End ExonLoop.

Lemma tx_exons_of_Forall (P : ExonData.t -> Prop) (p : provider)
    (tx_ac alt_ac alt_aln_method : string) (results : json) (out : list ExonData.t) :
  (forall alt_strand exon e,
      exon_alignment tx_ac alt_ac alt_strand alt_aln_method 0 exon = OK e -> P e) ->
  tx_exons_of p tx_ac alt_ac alt_aln_method results = OK (Some out) ->
  Forall P out.
Proof.
  intros Hbody. unfold tx_exons_of, rbind.
  destruct (negb (truthy results)); [discriminate |].
  destruct (_get_transcript_for_contig p results alt_ac) as [transcript |]; [| discriminate].
  destruct (getitem transcript "loc_strand") as [alt_strand |]; [| discriminate].
  destruct (getitem transcript "exons") as [exons |]; [| discriminate].
  destruct (iter exons) as [items |]; [| discriminate].
  destruct (exons_loop tx_ac alt_ac alt_strand alt_aln_method 0 items [])
    as [tx_exons |] eqn:Hloop; [| discriminate].
  intros [= <-].
  eapply exons_loop_Forall; [apply Hbody | exact Hloop | constructor].
Qed.

(** C4: for every exon alignment that [get_tx_exons] produces, the
    transcript-space span [tx_end_i - tx_start_i] equals the genomic span
    [alt_end_i - alt_start_i], and the cigar is the decimal form of that
    span followed by the no-gap marker "=". *)
Theorem C4_exon_span_consistency
    (requests_get : list string -> string -> response)
    (tx_ac alt_ac alt_aln_method : string) (s s' : state)
    (tx_exons : list ExonData.t) (e : ExonData.t) :
  get_tx_exons requests_get tx_ac alt_ac alt_aln_method s = (OK (Some tx_exons), s') ->
  e ∈ tx_exons ->
  exists a b : Z,
    as_int (ExonData.alt_start_i e) = Some a
    /\ as_int (ExonData.alt_end_i e) = Some b
    /\ ExonData.tx_end_i e - ExonData.tx_start_i e = b - a
    /\ ExonData.cigar e = str_of_int (b - a) ++ "=".
Proof.
  intros Hrun Hin.
  destruct (get_tx_exons_returns _ _ _ _ _ _ _ Hrun) as (_ & results & _ & Hpure).
  assert (Hall : Forall span_consistent tx_exons).
  { eapply tx_exons_of_Forall; [| exact Hpure].
    intros alt_strand exon e' He'. eapply exon_alignment_span. exact He'. }
  rewrite Forall_forall in Hall. apply (Hall e Hin).
Qed.

Lemma C4_exon_span_consistency_witness :
  exists a b : Z,
    as_int (ExonData.alt_start_i Example.alignment2) = Some a
    /\ as_int (ExonData.alt_end_i Example.alignment2) = Some b
    /\ ExonData.tx_end_i Example.alignment2 - ExonData.tx_start_i Example.alignment2 = b - a
    /\ ExonData.cigar Example.alignment2 = str_of_int (b - a) ++ "=".
Proof.
  apply (C4_exon_span_consistency Example.archive Example.tx_ac Example.contig38
           NCBI_ALN_METHOD Example.fresh Example.after_lookup
           [Example.alignment1; Example.alignment2]).
  - vm_compute. reflexivity.
  - apply list_elem_of_In. right. left. reflexivity.
Defined.

(** *** The running transcript offset *)

(** Every alignment starts at the initial value of [exon_transcript_pos]. *)
Lemma get_tx_exons_starts_at_zero
    (requests_get : list string -> string -> response)
    (tx_ac alt_ac alt_aln_method : string) (s s' : state)
    (tx_exons : list ExonData.t) :
  get_tx_exons requests_get tx_ac alt_ac alt_aln_method s = (OK (Some tx_exons), s') ->
  Forall (fun e => ExonData.tx_start_i e = 0) tx_exons.
Proof.
  intros Hrun.
  destruct (get_tx_exons_returns _ _ _ _ _ _ _ Hrun) as (_ & results & _ & Hpure).
  eapply tx_exons_of_Forall; [| exact Hpure].
  intros alt_strand exon e He. eapply exon_alignment_span. exact He.
Qed.

(** C1 (as the code behaves): on the two-exon record the first alignment
    starts at 0 and ends at 99, and the second starts at 0 again, not at
    99: [exon_transcript_pos] is never advanced, so the transcript
    intervals are not contiguous. *)
Theorem C1_offset_never_advanced :
  get_tx_exons Example.archive Example.tx_ac Example.contig38 NCBI_ALN_METHOD Example.fresh
  = (OK (Some [Example.alignment1; Example.alignment2]), Example.after_lookup)
  /\ ExonData.tx_start_i Example.alignment1 = 0
  /\ ExonData.tx_end_i Example.alignment1 = 99
  /\ ExonData.tx_start_i Example.alignment2 = 0
  /\ ~ contiguous [Example.alignment1; Example.alignment2].
Proof.
  split; [vm_compute; reflexivity |].
  repeat split. cbn. intros [Hmeet _]. discriminate Hmeet.
Qed.

(** *** The end-to-end example *)

(** C2 (as stated) fails: the answer for the example is not a pair of
    alignments with transcript intervals 0-99 and 100-149 and cigars
    "100=" and "50=". *)
Lemma C2_counterexample :
  ~ (exists (e1 e2 : ExonData.t) (s' : state),
        get_tx_exons Example.archive Example.tx_ac Example.contig38 NCBI_ALN_METHOD
          Example.fresh = (OK (Some [e1; e2]), s')
        /\ is_alignment e1 0 99 100 199 "100="
        /\ is_alignment e2 100 149 300 349 "50=").
Proof.
  intros (e1 & e2 & s' & Hrun & H1 & _).
  vm_compute in Hrun. injection Hrun as <- _ _.
  destruct H1 as (_ & _ & _ & _ & Hcigar). discriminate Hcigar.
Qed.

(** C2 (amended): for the example, [get_tx_exons] returns exactly two
    alignments; the first has transcript interval 0-99, genomic interval
    100-199 and cigar "99="; the second has genomic interval 300-349, a
    transcript span of 49 and cigar "49=". *)
Theorem C2_example_alignments :
  exists (e1 e2 : ExonData.t) (s' : state),
    get_tx_exons Example.archive Example.tx_ac Example.contig38 NCBI_ALN_METHOD
      Example.fresh = (OK (Some [e1; e2]), s')
    /\ is_alignment e1 0 99 100 199 "99="
    /\ ExonData.alt_start_i e2 = JInt 300
    /\ ExonData.alt_end_i e2 = JInt 349
    /\ ExonData.tx_end_i e2 - ExonData.tx_start_i e2 = 49
    /\ ExonData.cigar e2 = "49=".
Proof.
  exists Example.alignment1, Example.alignment2, Example.after_lookup.
  split; [vm_compute; reflexivity |].
  repeat split.
Qed.

(** *** The alignment-method gate *)

(** C7: with any alignment method other than "splign", [get_tx_info] and
    [get_tx_exons] raise the unsupported-method error and hand back the
    state they were given: no request is added to the log and the
    transcript cache is as it was. *)
Theorem C7_alignment_method_gate
    (requests_get : list string -> string -> response)
    (tx_ac alt_ac alt_aln_method : string) (s : state) :
  alt_aln_method <> NCBI_ALN_METHOD ->
  get_tx_info requests_get tx_ac alt_ac alt_aln_method s
  = (Raise (HGVSDataNotAvailableError (MsgOnlySupports NCBI_ALN_METHOD)), s)
  /\ get_tx_exons requests_get tx_ac alt_ac alt_aln_method s
     = (Raise (HGVSDataNotAvailableError (MsgOnlySupports NCBI_ALN_METHOD)), s).
Proof.
  intros Hne. unfold get_tx_info, get_tx_exons, bind.
  rewrite (check_alt_aln_method_other _ _ Hne). split; reflexivity.
Qed.

Lemma C7_alignment_method_gate_witness :
  get_tx_info Example.archive Example.tx_ac Example.contig38 "blat" Example.fresh
  = (Raise (HGVSDataNotAvailableError (MsgOnlySupports NCBI_ALN_METHOD)), Example.fresh)
  /\ get_tx_exons Example.archive Example.tx_ac Example.contig38 "blat" Example.fresh
     = (Raise (HGVSDataNotAvailableError (MsgOnlySupports NCBI_ALN_METHOD)), Example.fresh).
Proof.
  apply (C7_alignment_method_gate Example.archive Example.tx_ac Example.contig38 "blat"
           Example.fresh).
  discriminate.
Defined.

(** *** The fetcher *)

Section Fetcher.
Variable requests_get : list string -> string -> response.

(** Every call of the fetcher issues exactly one request and leaves the
    provider alone. *)
Lemma get_from_url_state (url : string) (s : state) :
  snd (_get_from_url requests_get url s)
  = {| self := self s; requests_log := url :: requests_log s |}.
Proof.
  unfold _get_from_url, bind, http_get, ret, raise. cbn.
  destruct (ok _); [| reflexivity].
  destruct (content_type _) as [header |]; [| reflexivity].
  destruct (contains _ header); [| reflexivity].
  destruct (json_body _); reflexivity.
Qed.

Lemma get_from_url_data (url : string) (s : state) (data : json) :
  fst (_get_from_url requests_get url s) = OK data ->
  data = JNull \/ json_body (requests_get (requests_log s) url) = Some data.
Proof.
  unfold _get_from_url, bind, http_get, ret, raise. cbn.
  destruct (ok _); [| cbn; intros [= <-]; left; reflexivity].
  destruct (content_type _) as [header |]; [| discriminate].
  destruct (contains _ header); [| discriminate].
  destruct (json_body _) as [body |]; [| discriminate].
  cbn. intros [= <-]. right. reflexivity.
Qed.

End Fetcher.

(** C9: a successful response without a Content-Type header makes
    [_get_from_url] raise [TypeError], neither data nor the non-JSON
    [ValueError]; with a header present the content check never raises
    [TypeError]: it raises the [ValueError] exactly when the header does
    not contain "application/json". *)
Theorem C9_missing_content_type
    (requests_get : list string -> string -> response) (url : string) (s : state) :
  ok (requests_get (requests_log s) url) = true ->
  (content_type (requests_get (requests_log s) url) = None ->
   fst (_get_from_url requests_get url s) = Raise TypeError)
  /\ (forall header,
        content_type (requests_get (requests_log s) url) = Some header ->
        fst (_get_from_url requests_get url s) <> Raise TypeError
        /\ (contains "application/json" header = false <->
            fst (_get_from_url requests_get url s)
            = Raise (ValueError ("Non-json response received for '" ++ url
                                 ++ "' - are you behind a firewall?")))).
Proof.
  intros Hok. unfold _get_from_url, bind, http_get, ret, raise. cbn.
  rewrite Hok. split.
  - intros ->. reflexivity.
  - intros header ->.
    destruct (contains "application/json" header).
    + destruct (json_body _); cbn; (split; [discriminate | split; discriminate]).
    + cbn. split; [discriminate | split; reflexivity].
Qed.

Lemma C9_missing_content_type_witness :
  fst (_get_from_url Example.archive_no_header "https://tark.ensembl.org/api/transcript/?"
         Example.fresh) = Raise TypeError.
Proof.
  apply (C9_missing_content_type Example.archive_no_header
           "https://tark.ensembl.org/api/transcript/?" Example.fresh); reflexivity.
Defined.

(** *** The transcript cache *)

Section Cache.
Variable requests_get : list string -> string -> response.

Lemma get_transcript_results_hit (tx_ac : string) (s : state) (results : json) :
  transcript_results (self s) !! tx_ac = Some results ->
  _get_transcript_results requests_get tx_ac s = (OK results, s).
Proof.
  intros Hhit. unfold _get_transcript_results, bind, gets. cbn. rewrite Hhit. reflexivity.
Qed.

(** What a lookup that misses the cache does: it stops at a malformed
    version before any request, or issues one request and then either
    raises, leaving the provider as it was, or stores what it returns. *)
Lemma get_transcript_results_miss (tx_ac : string) (s s' : state) (r : result json) :
  transcript_results (self s) !! tx_ac = None ->
  _get_transcript_results requests_get tx_ac s = (r, s') ->
  (exists e, r = Raise e /\ s' = s /\ _get_transcript_id_and_version tx_ac = Raise e)
  \/ (exists id_version,
        _get_transcript_id_and_version tx_ac = OK id_version
        /\ let url := transcript_url (base_url (self s)) (fst id_version) (snd id_version) in
           requests_log s' = url :: requests_log s
           /\ ((exists e, r = Raise e /\ self s' = self s)
               \/ (exists data results,
                     r = OK results
                     /\ json_body (requests_get (requests_log s) url) = Some data
                     /\ getitem data "results" = OK results
                     /\ nonempty results
                     /\ self s' = with_transcript_results (self s)
                                    (<[tx_ac := results]> (transcript_results (self s)))))).
Proof.
  intros Hmiss. unfold _get_transcript_results, bind, gets, lift.
  cbn -[_get_from_url _get_transcript_id_and_version]. rewrite Hmiss.
  destruct (_get_transcript_id_and_version tx_ac) as [id_version | e0].
  2:{ intros [= <- <-]. left. eauto. }
  intros Hrun. right. exists id_version. split; [reflexivity |]. cbn zeta.
  set (url := transcript_url (base_url (self s)) (fst id_version) (snd id_version)) in *.
  pose proof (get_from_url_state requests_get url s) as Hstate.
  pose proof (get_from_url_data requests_get url s) as Hdata.
  destruct (_get_from_url requests_get url s) as [[data | e] s1]; cbn in Hstate, Hdata; subst s1.
  2:{ cbn in Hrun. injection Hrun as <- <-. cbn. eauto. }
  destruct (getitem data "results") as [results | e] eqn:Hresults.
  2:{ cbn in Hrun. injection Hrun as <- <-. cbn. eauto. }
  destruct (truthy results) eqn:Htruthy.
  2:{ cbn in Hrun. injection Hrun as <- <-. cbn. eauto. }
  destruct (len results) as [n | e] eqn:Hlen.
  2:{ cbn in Hrun. injection Hrun as <- <-. cbn. eauto. }
  destruct (1 <=? n) eqn:Hn.
  2:{ cbn in Hrun. injection Hrun as <- <-. cbn. eauto. }
  unfold store_transcript_results, ret in Hrun. cbn in Hrun. injection Hrun as <- <-. cbn.
  split; [reflexivity |]. right. exists data, results.
  destruct (Hdata data eq_refl) as [-> | Hbody]; [discriminate Hresults |].
  repeat split; try assumption; try reflexivity.
  exists n. split; [exact Hlen | apply Z.leb_le, Hn].
Qed.

(** A lookup never touches the directory of the provider. *)
Lemma get_transcript_results_directory (tx_ac : string) (s : state) :
  directory (self (snd (_get_transcript_results requests_get tx_ac s))) = directory (self s).
Proof.
  destruct (transcript_results (self s) !! tx_ac) as [cached |] eqn:Hcache.
  - rewrite (get_transcript_results_hit _ _ _ Hcache). reflexivity.
  - destruct (_get_transcript_results requests_get tx_ac s) as [r s'] eqn:Hrun.
    destruct (get_transcript_results_miss _ _ _ _ Hcache Hrun)
      as [(e & _ & -> & _) | (idv & _ & _ & [(e & _ & Hself) | (d & res & _ & _ & _ & _ & Hself)])];
      cbn; [reflexivity | rewrite Hself; reflexivity | rewrite Hself; reflexivity].
Qed.

(** A lookup that raises leaves the cache as it was. *)
Lemma get_transcript_results_raise (tx_ac : string) (s s' : state) (e : exn) :
  _get_transcript_results requests_get tx_ac s = (Raise e, s') ->
  self s' = self s.
Proof.
  intros Hrun.
  destruct (transcript_results (self s) !! tx_ac) as [cached |] eqn:Hcache.
  - rewrite (get_transcript_results_hit _ _ _ Hcache) in Hrun. discriminate.
  - destruct (get_transcript_results_miss _ _ _ _ Hcache Hrun)
      as [(e' & _ & -> & _) | (idv & _ & _ & [(e' & _ & Hself) | (d & res & Hr & _)])];
      [reflexivity | exact Hself | discriminate].
Qed.

(** A lookup keeps the cached values non-empty. *)
Lemma get_transcript_results_cache (P : json -> Prop) (tx_ac : string) (s : state) :
  (forall data results,
      json_body (requests_get (requests_log s)
                   (match _get_transcript_id_and_version tx_ac with
                    | OK id_version =>
                        transcript_url (base_url (self s)) (fst id_version) (snd id_version)
                    | Raise _ => EmptyString
                    end)) = Some data ->
      getitem data "results" = OK results -> nonempty results -> P results) ->
  (forall k v, transcript_results (self s) !! k = Some v -> P v) ->
  forall k v,
    transcript_results (self (snd (_get_transcript_results requests_get tx_ac s))) !! k = Some v ->
    P v.
Proof.
  intros Hnew Hold k v.
  destruct (transcript_results (self s) !! tx_ac) as [cached |] eqn:Hcache.
  - rewrite (get_transcript_results_hit _ _ _ Hcache). apply Hold.
  - destruct (_get_transcript_results requests_get tx_ac s) as [r s'] eqn:Hrun.
    destruct (get_transcript_results_miss _ _ _ _ Hcache Hrun)
      as [(e & _ & -> & _)
         | (idv & Hidv & _ & [(e & _ & Hself) | (d & res & _ & Hbody & Hres & Hne & Hself)])];
      cbn.
    + apply Hold.
    + rewrite Hself. apply Hold.
    + rewrite Hself. cbn. rewrite lookup_insert. case_decide as Hk.
      * intros [= <-]. rewrite Hidv in Hnew. eapply Hnew; eassumption.
      * apply Hold.
Qed.

(** What a public call leaves behind is what its lookup left behind, if
    it got as far as the lookup. *)
Lemma run_call_state (c : call) (s : state) :
  run_call requests_get c s = s
  \/ exists tx_ac, run_call requests_get c s = snd (_get_transcript_results requests_get tx_ac s).
Proof.
  destruct c as [tx_ac alt_ac m | tx_ac alt_ac m | ac | tx_ac]; unfold run_call.
  - destruct (String.eqb_spec m NCBI_ALN_METHOD) as [-> | Hne].
    + right. exists tx_ac. rewrite get_tx_info_splign.
      destruct (_get_transcript_results requests_get tx_ac s) as [[res | e] s']; reflexivity.
    + left. unfold get_tx_info, bind. rewrite (check_alt_aln_method_other _ _ Hne). reflexivity.
  - destruct (String.eqb_spec m NCBI_ALN_METHOD) as [-> | Hne].
    + right. exists tx_ac. rewrite get_tx_exons_splign.
      destruct (_get_transcript_results requests_get tx_ac s) as [[res | e] s']; reflexivity.
    + left. unfold get_tx_exons, bind. rewrite (check_alt_aln_method_other _ _ Hne). reflexivity.
  - right. exists ac. unfold get_transcript_sequence, bind, lift.
    destruct (_get_transcript_results requests_get ac s) as [[res | e] s']; reflexivity.
  - right. exists tx_ac. reflexivity.
Qed.

Lemma run_calls_invariant (I : state -> Prop) :
  (forall tx_ac s, I s -> I (snd (_get_transcript_results requests_get tx_ac s))) ->
  forall calls s, I s -> I (run_calls requests_get calls s).
Proof.
  intros Hstep calls. induction calls as [| c calls IH]; intros s Hs; [exact Hs |].
  cbn. apply IH.
  destruct (run_call_state c s) as [-> | [tx_ac ->]]; [exact Hs | apply Hstep, Hs].
Qed.

Lemma run_calls_directory (calls : list call) (s : state) :
  directory (self (run_calls requests_get calls s)) = directory (self s).
Proof.
  apply (run_calls_invariant (fun s' => directory (self s') = directory (self s)));
    [| reflexivity].
  intros tx_ac s' Hs'. rewrite get_transcript_results_directory. exact Hs'.
Qed.

End Cache.

(** C8: when a lookup that misses the cache succeeds, the results are
    stored under the accession as it was given and one request has been
    issued; the same lookup again returns the stored results and leaves
    the state, request log included, as it is.  So two consecutive
    [get_tx_info] calls, or two [get_tx_exons] calls, with the same
    arguments answer the same and issue one request between them. *)
Theorem C8_second_lookup_is_cached
    (requests_get : list string -> string -> response)
    (tx_ac : string) (s s1 : state) (results : json) :
  transcript_results (self s) !! tx_ac = None ->
  _get_transcript_results requests_get tx_ac s = (OK results, s1) ->
  transcript_results (self s1) !! tx_ac = Some results
  /\ (exists url, requests_log s1 = url :: requests_log s)
  /\ _get_transcript_results requests_get tx_ac s1 = (OK results, s1)
  /\ forall alt_ac,
       (let first := get_tx_info requests_get tx_ac alt_ac NCBI_ALN_METHOD s in
        let second := get_tx_info requests_get tx_ac alt_ac NCBI_ALN_METHOD (snd first) in
        fst second = fst first
        /\ List.length (requests_log (snd second)) = S (List.length (requests_log s)))
       /\ (let first := get_tx_exons requests_get tx_ac alt_ac NCBI_ALN_METHOD s in
           let second := get_tx_exons requests_get tx_ac alt_ac NCBI_ALN_METHOD (snd first) in
           fst second = fst first
           /\ List.length (requests_log (snd second)) = S (List.length (requests_log s))).
Proof.
  intros Hmiss Hrun.
  destruct (get_transcript_results_miss _ _ _ _ _ Hmiss Hrun)
    as [(e & He & _) | (idv & _ & Hlog & [(e & He & _) | (d & res & Hres & _ & _ & _ & Hself)])];
    try discriminate.
  injection Hres as <-.
  assert (Hstored : transcript_results (self s1) !! tx_ac = Some results).
  { rewrite Hself. cbn. apply lookup_insert_eq. }
  pose proof (get_transcript_results_hit requests_get _ _ _ Hstored) as Hhit.
  split; [exact Hstored |]. split; [eauto |]. split; [exact Hhit |].
  intros alt_ac. cbn zeta. split.
  - rewrite (get_tx_info_splign requests_get tx_ac alt_ac s), Hrun.
    cbn [fst snd]. rewrite get_tx_info_splign, Hhit. cbn [fst snd].
    split; [reflexivity |]. rewrite Hlog. reflexivity.
  - rewrite (get_tx_exons_splign requests_get tx_ac alt_ac s), Hrun.
    cbn [fst snd]. rewrite get_tx_exons_splign, Hhit. cbn [fst snd].
    split; [reflexivity |]. rewrite Hlog. reflexivity.
Qed.

Lemma C8_second_lookup_is_cached_witness :
  transcript_results (self Example.after_lookup) !! Example.tx_ac
  = Some (JList [Example.record37; Example.record38])
  /\ _get_transcript_results Example.archive Example.tx_ac Example.after_lookup
     = (OK (JList [Example.record37; Example.record38]), Example.after_lookup).
Proof.
  destruct (C8_second_lookup_is_cached Example.archive Example.tx_ac Example.fresh
              Example.after_lookup (JList [Example.record37; Example.record38]))
    as (Hstored & _ & Hagain & _).
  - vm_compute. reflexivity.
  - vm_compute. reflexivity.
  - split; [exact Hstored | exact Hagain].
Defined.

Lemma init_cache_empty
    (get_ac_name_map get_name_ac_map : string -> result (gmap string string))
    (assemblies : option (list string)) (p0 : provider) :
  __init__ get_ac_name_map get_name_ac_map assemblies = OK p0 ->
  transcript_results p0 = ∅.
Proof.
  unfold __init__, rbind.
  destruct (load_assemblies _ _ _ _ _) as [loaded |]; [| discriminate].
  intros [= <-]. reflexivity.
Qed.

Lemma nonempty_list_of (results : json) :
  nonempty results ->
  results = JNull \/ (exists records, results = JList records) ->
  nonempty_list results.
Proof.
  intros [Htruthy _] [-> | [records ->]]; [discriminate |].
  destruct records as [| record rest]; [discriminate |].
  exists record, rest. reflexivity.
Qed.

(** C10: in every state the provider reaches from its construction, the
    cache maps accessions to non-empty results only (to non-empty lists
    when the archive answers with lists).  In any state, a lookup that
    raises leaves the cache as it was, with nothing stored under the
    accession, and if it had issued a request, the same lookup again
    issues that request again. *)
Theorem C10_cache_holds_only_results
    (get_ac_name_map get_name_ac_map : string -> result (gmap string string))
    (requests_get : list string -> string -> response)
    (assemblies : option (list string)) (p0 : provider) (calls : list call) :
  __init__ get_ac_name_map get_name_ac_map assemblies = OK p0 ->
  (let s := run_calls requests_get calls (initial_state p0) in
   (forall k v, transcript_results (self s) !! k = Some v -> nonempty v)
   /\ (results_are_lists requests_get ->
       forall k v, transcript_results (self s) !! k = Some v -> nonempty_list v))
  /\ (forall s tx_ac e s',
        _get_transcript_results requests_get tx_ac s = (Raise e, s') ->
        transcript_results (self s') = transcript_results (self s)
        /\ transcript_results (self s') !! tx_ac = None
        /\ (requests_log s' <> requests_log s ->
            exists url,
              requests_log s' = url :: requests_log s
              /\ requests_log (snd (_get_transcript_results requests_get tx_ac s'))
                 = url :: requests_log s')).
Proof.
  intros Hinit.
  pose proof (init_cache_empty _ _ _ _ Hinit) as Hempty.
  split; [cbn zeta; split |].
  - apply (run_calls_invariant requests_get
             (fun s => forall k v, transcript_results (self s) !! k = Some v -> nonempty v)).
    + intros tx_ac s0 Hs0. apply get_transcript_results_cache; [| exact Hs0].
      intros data results _ _ Hne. exact Hne.
    + cbn. rewrite Hempty. intros k v Hkv. rewrite lookup_empty in Hkv. discriminate.
  - intros Hlists.
    apply (run_calls_invariant requests_get
             (fun s => forall k v, transcript_results (self s) !! k = Some v -> nonempty_list v)).
    + intros tx_ac s0 Hs0. apply get_transcript_results_cache; [| exact Hs0].
      intros data results Hbody Hres Hne. apply nonempty_list_of; [exact Hne |].
      eapply Hlists; eassumption.
    + cbn. rewrite Hempty. intros k v Hkv. rewrite lookup_empty in Hkv. discriminate.
  - intros s tx_ac e s' Hrun.
    destruct (transcript_results (self s) !! tx_ac) as [cached |] eqn:Hcache.
    { rewrite (get_transcript_results_hit _ _ _ _ Hcache) in Hrun. discriminate. }
    destruct (get_transcript_results_miss _ _ _ _ _ Hcache Hrun)
      as [(e' & _ & -> & _)
         | (idv & Hidv & Hlog & [(e' & _ & Hself) | (d & res & Hr & _)])];
      [| | discriminate].
    + split; [reflexivity |]. split; [exact Hcache |]. intros Hne. contradiction.
    + rewrite Hself. split; [reflexivity |]. split; [exact Hcache |]. intros _.
      eexists. split; [exact Hlog |].
      destruct (_get_transcript_results requests_get tx_ac s') as [r2 s2] eqn:Hrun2.
      assert (Hcache' : transcript_results (self s') !! tx_ac = None)
        by (rewrite Hself; exact Hcache).
      destruct (get_transcript_results_miss _ _ _ _ _ Hcache' Hrun2)
        as [(e2 & _ & _ & Hbad) | (idv2 & Hidv2 & Hlog2 & _)].
      * rewrite Hidv in Hbad. discriminate.
      * rewrite Hidv in Hidv2. injection Hidv2 as <-. cbn. rewrite Hlog2, Hself. reflexivity.
Qed.

Lemma C10_cache_holds_only_results_witness :
  nonempty (JList [Example.record37; Example.record38])
  /\ nonempty_list (JList [Example.record37; Example.record38]).
Proof.
  destruct (C10_cache_holds_only_results Example.ac_name_map Example.name_ac_map
              Example.archive None Example.tark
              [CallTxExons Example.tx_ac Example.contig38 NCBI_ALN_METHOD])
    as ((Hnonempty & Hlist) & _).
  - vm_compute. reflexivity.
  - split.
    + apply (Hnonempty Example.tx_ac). vm_compute. reflexivity.
    + apply (Hlist ltac:(intros log url data results [= <-] [= <-]; right; eauto)
               Example.tx_ac).
      vm_compute. reflexivity.
Defined.

(** The three failures of the lookup: a 404, an answer without "results"
    and an empty results collection.  Each call issues the request anew
    and the cache stays empty. *)
Example failed_lookups_are_not_cached :
  let twice (archive : list string -> string -> response) :=
    run_calls archive [CallTranscriptResults Example.tx_ac; CallTranscriptResults Example.tx_ac]
      Example.fresh in
  let url := "https://tark.ensembl.org/api/transcript/?stable_id=ENST00000380152&stable_id_version=7&expand_all=true" in
  (fst (_get_transcript_results Example.archive_not_found Example.tx_ac Example.fresh)
   = Raise TypeError
   /\ requests_log (twice Example.archive_not_found) = [url; url]
   /\ transcript_results (self (twice Example.archive_not_found)) = ∅)
  /\ (fst (_get_transcript_results Example.archive_no_results Example.tx_ac Example.fresh)
      = Raise (KeyError "results")
      /\ requests_log (twice Example.archive_no_results) = [url; url]
      /\ transcript_results (self (twice Example.archive_no_results)) = ∅)
  /\ (fst (_get_transcript_results Example.archive_empty Example.tx_ac Example.fresh)
      = Raise (HGVSDataNotAvailableError
                 (MsgNoResults Example.tx_ac
                    (JObj [("count", JInt 0); ("results", JList [])])))
      /\ requests_log (twice Example.archive_empty) = [url; url]
      /\ transcript_results (self (twice Example.archive_empty)) = ∅).
Proof. vm_compute. repeat split. Qed.

(** *** The errors of [get_tx_info] *)

(** C3 (as the code behaves): when the resolver finds no record for the
    contig's assembly, [get_tx_info] subscripts the [None] it was handed
    and raises [TypeError]; when the archive answers 404, the lookup
    subscripts the missing data and raises [TypeError]; when the answer
    has no "results" member, it raises [KeyError].  Only an empty results
    collection raises [HGVSDataNotAvailableError]. *)
Theorem C3_tx_info_escaping_errors :
  (_get_transcript_for_contig Example.tark (JList [Example.record38]) Example.contig37
   = OK JNull
   /\ fst (get_tx_info Example.archive38 Example.tx_ac Example.contig37 NCBI_ALN_METHOD
             Example.fresh) = Raise TypeError)
  /\ fst (get_tx_info Example.archive_not_found Example.tx_ac Example.contig38
            NCBI_ALN_METHOD Example.fresh) = Raise TypeError
  /\ fst (get_tx_info Example.archive_no_results Example.tx_ac Example.contig38
            NCBI_ALN_METHOD Example.fresh) = Raise (KeyError "results")
  /\ fst (get_tx_info Example.archive_empty Example.tx_ac Example.contig38
            NCBI_ALN_METHOD Example.fresh)
     = Raise (HGVSDataNotAvailableError
                (MsgNoResults Example.tx_ac
                   (JObj [("count", JInt 0); ("results", JList [])]))).
Proof. vm_compute. repeat split. Qed.

(** *** The CDS boundaries *)

Lemma sum_from (l : list Z) (a : Z) : List.fold_left Z.add l a = a + sum l.
Proof.
  unfold sum. revert a. induction l as [| x l IH]; intros a; [cbn; lia |].
  change (List.fold_left Z.add (x :: l) a) with (List.fold_left Z.add l (a + x)).
  change (List.fold_left Z.add (x :: l) 0) with (List.fold_left Z.add l (0 + x)).
  rewrite (IH (a + x)), (IH (0 + x)). lia.
Qed.

Lemma sum_cons (x : Z) (l : list Z) : sum (x :: l) = x + sum l.
Proof. unfold sum at 1. cbn. apply sum_from. Qed.

Lemma exon_lengths_total (exons : list json) (coords : list (Z * Z)) :
  Forall2 exon_coordinates exons coords ->
  exists lengths, exon_lengths exons = OK lengths /\ sum lengths = total_exonic_length coords.
Proof.
  induction 1 as [| exon [loc_start loc_end] exons coords Hexon _ IH].
  - exists []. split; reflexivity.
  - destruct IH as (lengths & Hlengths & Hsum).
    destruct Hexon as (vs & ve & Hs & He & Has & Hae). cbn in Has, Hae.
    exists (loc_end - loc_start + 1 :: lengths). split.
    + cbn. unfold rbind, sub. rewrite He, Hs, Hae, Has, Hlengths. reflexivity.
    + rewrite sum_cons, Hsum. reflexivity.
Qed.

Lemma truthy_str (s : string) : s <> EmptyString -> truthy (JStr s) = true.
Proof.
  intros Hne. cbn. destruct (String.eqb_spec s EmptyString); [contradiction | reflexivity].
Qed.

(** C5 (as stated) fails: on a record whose UTR sequences are present and
    non-empty but longer than its exons, the boundaries are 5 and -1,
    which are not ordered. *)
Lemma C5_counterexample :
  ~ (forall cds_start_i cds_end_i,
        _get_cds_start_end Example.record_short = OK (Some cds_start_i, Some cds_end_i) ->
        0 <= cds_start_i /\ cds_start_i <= cds_end_i
        /\ cds_end_i <= total_exonic_length [(100, 101)]).
Proof.
  intros Hclaim. specialize (Hclaim 5 (-1) eq_refl). lia.
Qed.

(** C5 (amended): on a record whose UTR sequences are both non-empty
    strings and whose exons carry integer coordinates, the calculator
    returns the length of the 5' UTR and the total exonic length minus
    the length of the 3' UTR; the start is at least 0, the end at most
    the total exonic length, and start <= end holds exactly when the two
    UTR lengths together do not exceed the total exonic length.  When
    either UTR sequence is null or empty it returns [(None, None)]. *)
Theorem C5_cds_boundaries (transcript three_prime_utr_seq five_prime_utr_seq : json) :
  getitem transcript "three_prime_utr_seq" = OK three_prime_utr_seq ->
  getitem transcript "five_prime_utr_seq" = OK five_prime_utr_seq ->
  (forall (five three : string) (exons : list json) (coords : list (Z * Z)),
      five_prime_utr_seq = JStr five -> three_prime_utr_seq = JStr three ->
      five <> EmptyString -> three <> EmptyString ->
      getitem transcript "exons" = OK (JList exons) ->
      Forall2 exon_coordinates exons coords ->
      let total := total_exonic_length coords in
      let cds_start_i := Z.of_nat (String.length five) in
      let cds_end_i := total - Z.of_nat (String.length three) in
      _get_cds_start_end transcript = OK (Some cds_start_i, Some cds_end_i)
      /\ 0 <= cds_start_i
      /\ cds_end_i <= total
      /\ (cds_start_i <= cds_end_i
          <-> Z.of_nat (String.length five) + Z.of_nat (String.length three) <= total))
  /\ (absent_or_empty five_prime_utr_seq \/ absent_or_empty three_prime_utr_seq ->
      _get_cds_start_end transcript = OK (None, None)).
Proof.
  intros H3 H5. split.
  - intros five three exons coords -> -> Hfive Hthree Hexons Hcoords total cds_start_i cds_end_i.
    destruct (exon_lengths_total _ _ Hcoords) as (lengths & Hlengths & Hsum).
    split; [| subst total cds_start_i cds_end_i; lia].
    unfold _get_cds_start_end, rbind. rewrite H3, H5.
    rewrite (truthy_str _ Hfive), (truthy_str _ Hthree). cbn [andb].
    rewrite Hexons. cbn [iter]. rewrite Hlengths. cbn [len]. rewrite Hsum. reflexivity.
  - intros Habsent. unfold _get_cds_start_end, rbind. rewrite H3, H5.
    destruct Habsent as [[-> | ->] | [-> | ->]]; cbn;
      try reflexivity; destruct (truthy three_prime_utr_seq); reflexivity.
Qed.

Lemma C5_cds_boundaries_witness :
  _get_cds_start_end Example.record38 = OK (Some 5, Some 147)
  /\ _get_cds_start_end Example.record_no_utr = OK (None, None).
Proof.
  split.
  - destruct (C5_cds_boundaries Example.record38 (JStr "TTT") (JStr "ACGTA")
                eq_refl eq_refl) as [Hpresent _].
    apply (Hpresent "ACGTA" "TTT" Example.exons38 [(100, 199); (300, 349)]);
      try reflexivity; try discriminate.
    unfold Example.exons38.
    constructor; [exists (JInt 100), (JInt 199); repeat split |].
    constructor; [exists (JInt 300), (JInt 349); repeat split |].
    constructor.
  - destruct (C5_cds_boundaries Example.record_no_utr (JStr "TTT") JNull
                eq_refl eq_refl) as [_ Habsent].
    apply Habsent. left. left. reflexivity.
Defined.

(** *** The contig resolver *)

Lemma index_contigs_None (items : list (string * gmap string string))
    (by_contig : gmap string string) (contig : string) :
  index_contigs items by_contig !! contig = None
  <-> by_contig !! contig = None
      /\ forall assembly (contig_map : gmap string string),
           (assembly, contig_map) ∈ items -> contig_map !! contig = None.
Proof.
  revert by_contig. induction items as [| [a m] items IH]; intros by_contig; cbn.
  - split; [intros H; split; [exact H |]; intros ? ? Hin; inversion Hin | intros [H _]; exact H].
  - rewrite IH, lookup_union_None, lookup_fmap, fmap_None. split.
    + intros [[Hm Hacc] Hrest]. split; [exact Hacc |].
      intros a' m' Hin. apply elem_of_cons in Hin as [[= -> ->] | Hin]; [exact Hm | eauto].
    + intros [Hacc Hall]. split; [split; [| exact Hacc] |].
      * apply (Hall a m). left.
      * intros a' m' Hin. apply (Hall a' m'). right. exact Hin.
Qed.

Lemma index_contigs_Some (items : list (string * gmap string string))
    (by_contig : gmap string string) (contig assembly : string) :
  index_contigs items by_contig !! contig = Some assembly ->
  by_contig !! contig = Some assembly
  \/ exists contig_map : gmap string string,
       (assembly, contig_map) ∈ items /\ is_Some (contig_map !! contig).
Proof.
  revert by_contig. induction items as [| [a m] items IH]; intros by_contig; cbn.
  - intros H. left. exact H.
  - intros H. destruct (IH _ H) as [Hhere | (m' & Hin & Hsome)].
    + apply lookup_union_Some_raw in Hhere as [Hm | [_ Hacc]].
      * rewrite lookup_fmap in Hm. apply fmap_Some in Hm as (name & Hname & ->).
        right. exists m. split; [left | eauto].
      * left. exact Hacc.
    + right. exists m'. split; [right; exact Hin | exact Hsome].
Qed.

Lemma init_assembly_by_contig
    (get_ac_name_map get_name_ac_map : string -> result (gmap string string))
    (assemblies : option (list string)) (p0 : provider) :
  __init__ get_ac_name_map get_name_ac_map assemblies = OK p0 ->
  assembly_by_contig p0 = index_contigs (assembly_maps p0) ∅.
Proof.
  unfold __init__, rbind.
  destruct (load_assemblies _ _ _ _ _) as [loaded |]; [| discriminate].
  intros [= <-]. reflexivity.
Qed.

Lemma eq_str_true (name : json) (s : string) : eq_str name s = true <-> name = JStr s.
Proof.
  destruct name as [| b | n | s' | l | kvs]; cbn; try (split; intros; discriminate).
  rewrite String.eqb_eq. split; [intros -> | intros [= ->]]; reflexivity.
Qed.

Lemma first_for_assembly_cons (transcript : json) (rest : list json) (assembly : string) :
  first_for_assembly (transcript :: rest) assembly
  = (name <-? assembly_name_of transcript;
     if eq_str name assembly then OK transcript else first_for_assembly rest assembly).
Proof.
  cbn. unfold assembly_name_of, rbind.
  destruct (getitem transcript "assembly"); reflexivity.
Qed.

Lemma first_for_assembly_skip (before rest : list json) (assembly : string) :
  Forall (fun t => in_other_assembly t assembly) before ->
  first_for_assembly (before ++ rest) assembly = first_for_assembly rest assembly.
Proof.
  induction 1 as [| t before (name & Hname & Hne) _ IH]; [reflexivity |].
  rewrite <- app_comm_cons, first_for_assembly_cons, Hname. cbn.
  destruct (eq_str name assembly) eqn:Heq; [| exact IH].
  apply eq_str_true in Heq. contradiction.
Qed.

(** C6: on a provider as constructed (and after any calls), the resolver
    raises the unsupported-contig [ValueError], whose message lists the
    configured assemblies, whenever no configured assembly has the
    contig; otherwise there is a configured assembly having the contig
    such that the resolver returns the first record of the list whose
    embedded assembly name is that assembly, wherever it stands in the
    list, and returns [None] (no error) when every record is of another
    assembly. *)
Theorem C6_contig_resolver
    (get_ac_name_map get_name_ac_map : string -> result (gmap string string))
    (requests_get : list string -> string -> response)
    (assemblies : option (list string)) (p0 : provider) (calls : list call)
    (records : list json) (alt_ac : string) :
  __init__ get_ac_name_map get_name_ac_map assemblies = OK p0 ->
  let p := self (run_calls requests_get calls (initial_state p0)) in
  (~ covered p alt_ac ->
   _get_transcript_for_contig p (JList records) alt_ac
   = Raise (ValueError ("Contig '" ++ alt_ac ++ "' not supported. Supported assemblies: "
                        ++ join ", " (List.map fst (assembly_maps p)))))
  /\ (covered p alt_ac ->
      exists assembly,
        configured p assembly alt_ac
        /\ (forall before transcript after,
              records = (before ++ transcript :: after)%list ->
              Forall (fun t => in_other_assembly t assembly) before ->
              in_assembly transcript assembly ->
              _get_transcript_for_contig p (JList records) alt_ac = OK transcript)
        /\ (Forall (fun t => in_other_assembly t assembly) records ->
            _get_transcript_for_contig p (JList records) alt_ac = OK JNull)).
Proof.
  intros Hinit p.
  assert (Hdir : directory p = directory p0)
    by apply (run_calls_directory requests_get calls (initial_state p0)).
  injection Hdir as _ Hmaps _ Hby.
  pose proof (init_assembly_by_contig _ _ _ _ Hinit) as Hindex.
  unfold _get_transcript_for_contig, covered, configured.
  rewrite Hby, Hindex, Hmaps.
  destruct (index_contigs (assembly_maps p0) ∅ !! alt_ac) as [assembly |] eqn:Hlookup.
  - split.
    + intros Huncovered. exfalso. apply Huncovered.
      destruct (index_contigs_Some _ _ _ _ Hlookup) as [Hempty | Hconf].
      * rewrite lookup_empty in Hempty. discriminate.
      * exists assembly. exact Hconf.
    + intros _. exists assembly. split.
      * destruct (index_contigs_Some _ _ _ _ Hlookup) as [Hempty | Hconf]; [| exact Hconf].
        rewrite lookup_empty in Hempty. discriminate.
      * cbn [iter rbind]. split.
        -- intros before transcript after -> Hbefore Hin.
           rewrite (first_for_assembly_skip _ _ _ Hbefore), first_for_assembly_cons.
           unfold in_assembly in Hin. rewrite Hin. cbn.
           rewrite String.eqb_refl. reflexivity.
        -- intros Hall. rewrite <- (app_nil_r records).
           rewrite (first_for_assembly_skip _ _ _ Hall). reflexivity.
  - split; [intros _; reflexivity |].
    intros (assembly & m & Hin & Hsome). exfalso.
    apply index_contigs_None in Hlookup as [_ Hnone].
    rewrite (Hnone _ _ Hin) in Hsome. destruct Hsome as [? ?]. discriminate.
Qed.

Lemma C6_contig_resolver_witness :
  let p := self (run_calls Example.archive
                   [CallTxInfo Example.tx_ac Example.contig38 NCBI_ALN_METHOD]
                   (initial_state Example.tark)) in
  _get_transcript_for_contig p (JList [Example.record37; Example.record38]) Example.contig38
  = OK Example.record38
  /\ _get_transcript_for_contig p (JList [Example.record37]) Example.contig38 = OK JNull
  /\ _get_transcript_for_contig p (JList [Example.record37; Example.record38]) "NC_000019.10"
     = Raise (ValueError
                "Contig 'NC_000019.10' not supported. Supported assemblies: GRCh37, GRCh38").
Proof.
  intros p.
  assert (Hmaps : assembly_maps p
                  = [("GRCh37", {[ "CM000663.1" := "1"; "NC_000001.10" := "1" ]});
                     ("GRCh38", {[ "CM000663.2" := "1"; "NC_000001.11" := "1" ]})])
    by (vm_compute; reflexivity).
  assert (Hcovered : covered p Example.contig38).
  { exists "GRCh38", {[ "CM000663.2" := "1"; "NC_000001.11" := "1" ]}.
    rewrite Hmaps. split; [right; left | vm_compute; eauto]. }
  assert (Hresolved : forall assembly, configured p assembly Example.contig38 ->
                                       assembly = "GRCh38").
  { intros assembly (m & Hin & Hsome). rewrite Hmaps in Hin.
    apply list_elem_of_In in Hin.
    destruct Hin as [[= <- <-] | [[= <- <-] | []]]; [| reflexivity].
    vm_compute in Hsome. destruct Hsome as [x Hx]. discriminate Hx. }
  assert (Hother : in_other_assembly Example.record37 "GRCh38").
  { exists (JStr "GRCh37"). split; [reflexivity | discriminate]. }
  split; [| split].
  - destruct (C6_contig_resolver Example.ac_name_map Example.name_ac_map Example.archive None
                Example.tark [CallTxInfo Example.tx_ac Example.contig38 NCBI_ALN_METHOD]
                [Example.record37; Example.record38] Example.contig38)
      as [_ Hfound]; [vm_compute; reflexivity |].
    destruct (Hfound Hcovered) as (assembly & Hconfigured & Hfirst & _).
    rewrite (Hresolved assembly Hconfigured) in Hfirst.
    apply (Hfirst [Example.record37] Example.record38 []);
      [reflexivity | constructor; [exact Hother | constructor] | reflexivity].
  - destruct (C6_contig_resolver Example.ac_name_map Example.name_ac_map Example.archive None
                Example.tark [CallTxInfo Example.tx_ac Example.contig38 NCBI_ALN_METHOD]
                [Example.record37] Example.contig38)
      as [_ Hfound]; [vm_compute; reflexivity |].
    destruct (Hfound Hcovered) as (assembly & Hconfigured & _ & Hnone).
    rewrite (Hresolved assembly Hconfigured) in Hnone.
    apply Hnone. constructor; [exact Hother | constructor].
  - destruct (C6_contig_resolver Example.ac_name_map Example.name_ac_map Example.archive None
                Example.tark [CallTxInfo Example.tx_ac Example.contig38 NCBI_ALN_METHOD]
                [Example.record37; Example.record38] "NC_000019.10")
      as [Hrefused _]; [vm_compute; reflexivity |].
    assert (Huncovered : ~ covered p "NC_000019.10").
    { intros (assembly & m & Hin & Hsome). rewrite Hmaps in Hin.
      apply list_elem_of_In in Hin.
      destruct Hin as [[= <- <-] | [[= <- <-] | []]];
        vm_compute in Hsome; destruct Hsome as [x Hx]; discriminate Hx. }
    etransitivity; [exact (Hrefused Huncovered) | vm_compute; reflexivity].
Defined.

(** The resolver on the mocked archive: the GRCh38 record is found in
    second position, a GRCh37-only contig finds the first, and a contig
    of neither assembly is refused. *)
Example contig_resolver_examples :
  _get_transcript_for_contig Example.tark (JList [Example.record37; Example.record38])
    Example.contig38 = OK Example.record38
  /\ _get_transcript_for_contig Example.tark (JList [Example.record37; Example.record38])
       Example.contig37 = OK Example.record37
  /\ _get_transcript_for_contig Example.tark (JList [Example.record37]) Example.contig38
     = OK JNull
  /\ _get_transcript_for_contig Example.tark (JList [Example.record37; Example.record38])
       "NC_000019.10"
     = Raise (ValueError
                "Contig 'NC_000019.10' not supported. Supported assemblies: GRCh37, GRCh38").
Proof. vm_compute. repeat split. Qed.

(** ** Further properties of the provider *)

(** *** Accessions and their versions *)

Lemma append_cons (x : ascii) (a b : string) : (String x a ++ b)%string = String x (a ++ b).
Proof. reflexivity. Qed.

Lemma append_nil (b : string) : (EmptyString ++ b)%string = b.
Proof. reflexivity. Qed.

Lemma string_app_assoc (a b c : string) : ((a ++ b) ++ c)%string = (a ++ (b ++ c))%string.
Proof.
  induction a as [| x a IH]; [reflexivity |]. rewrite !append_cons, IH. reflexivity.
Qed.

Lemma occurrences_app (c : ascii) (a b : string) :
  occurrences c (a ++ b) = (occurrences c a + occurrences c b)%nat.
Proof.
  induction a as [| x a IH]; [reflexivity |].
  rewrite append_cons. cbn [occurrences]. rewrite IH. lia.
Qed.

Lemma split_on_length (sep : ascii) (s : string) :
  List.length (split_on sep s) = S (occurrences sep s).
Proof.
  induction s as [| c s IH]; [reflexivity |]. cbn.
  destruct (Ascii.eqb c sep); cbn; [rewrite IH; reflexivity |].
  destruct (split_on sep s) as [| p ps]; cbn in *; lia.
Qed.

Lemma split_on_absent (sep : ascii) (s : string) :
  occurrences sep s = 0%nat -> split_on sep s = [s].
Proof.
  induction s as [| c s IH]; [reflexivity |]. cbn.
  destruct (Ascii.eqb c sep); [discriminate |]. cbn. intros H. rewrite (IH H). reflexivity.
Qed.

Lemma split_on_first (sep : ascii) (a b : string) :
  occurrences sep a = 0%nat ->
  split_on sep (a ++ String sep b) = a :: split_on sep b.
Proof.
  induction a as [| c a IH].
  - intros _. rewrite append_nil. cbn. rewrite Ascii.eqb_refl. reflexivity.
  - rewrite append_cons. cbn. destruct (Ascii.eqb c sep); [discriminate |].
    cbn. intros H. rewrite (IH H). reflexivity.
Qed.

Lemma lstrip_no_space (s : string) : no_space s -> lstrip s = s.
Proof.
  destruct s as [| c s]; [reflexivity |]. intros H. inversion H as [| ? ? Hc _]; subst.
  cbn. rewrite Hc. reflexivity.
Qed.

Lemma rev_string_involutive (s : string) : rev_string (rev_string s) = s.
Proof.
  unfold rev_string. rewrite list_ascii_of_string_of_list_ascii, rev_involutive.
  apply string_of_list_ascii_of_string.
Qed.

Lemma strip_no_space (s : string) : no_space s -> strip s = s.
Proof.
  intros H. unfold strip. rewrite (lstrip_no_space s H).
  rewrite lstrip_no_space; [apply rev_string_involutive |].
  unfold no_space, rev_string. rewrite list_ascii_of_string_of_list_ascii.
  apply Forall_rev. exact H.
Qed.

Lemma digits_value_true (d : Decimal.uint) (acc : Z) :
  digits_value true acc (NilEmpty.string_of_uint d) = Some (uint_value d acc).
Proof.
  revert acc. induction d; intros acc; cbn [NilEmpty.string_of_uint uint_value];
    [reflexivity | ..]; cbn; apply IHd.
Qed.

Lemma digits_value_false (d : Decimal.uint) (acc : Z) :
  d <> Decimal.Nil ->
  digits_value false acc (NilEmpty.string_of_uint d) = Some (uint_value d acc).
Proof.
  destruct d; intros Hd; [contradiction | ..];
    cbn [NilEmpty.string_of_uint uint_value]; cbn; apply digits_value_true.
Qed.

Lemma uint_value_of_uint_acc (d : Decimal.uint) (acc : positive) :
  Z.pos (Pos.of_uint_acc d acc) = uint_value d (Z.pos acc).
Proof.
  revert acc. induction d; intros acc; cbn [Pos.of_uint_acc uint_value];
    [reflexivity | ..]; rewrite IHd; f_equal; lia.
Qed.

Lemma uint_value_of_uint (d : Decimal.uint) : Z.of_N (Pos.of_uint d) = uint_value d 0.
Proof.
  induction d; cbn [Pos.of_uint uint_value]; [reflexivity | exact IHd | ..];
    cbn [Z.of_N]; rewrite uint_value_of_uint_acc; reflexivity.
Qed.

Lemma uint_value_to_uint (p : positive) : uint_value (Pos.to_uint p) 0 = Z.pos p.
Proof. rewrite <- uint_value_of_uint, DecimalPos.Unsigned.of_to. reflexivity. Qed.

Lemma string_of_uint_no_space (d : Decimal.uint) : no_space (NilEmpty.string_of_uint d).
Proof.
  unfold no_space. induction d; cbn [NilEmpty.string_of_uint list_ascii_of_string];
    constructor; (reflexivity || assumption).
Qed.

Lemma string_of_uint_no_dot (d : Decimal.uint) :
  occurrences "." (NilEmpty.string_of_uint d) = 0%nat.
Proof. induction d; cbn [NilEmpty.string_of_uint]; [reflexivity | ..]; cbn; exact IHd. Qed.

Lemma string_of_uint_nonnil (d : Decimal.uint) :
  d <> Decimal.Nil -> NilZero.string_of_uint d = NilEmpty.string_of_uint d.
Proof. destruct d; [contradiction | ..]; reflexivity. Qed.

(** What [int] reads when the stripped literal starts with a digit. *)
Lemma int_of_str_unsigned (s : string) (c : ascii) (rest : string) (k : Z) :
  strip s = String c rest ->
  digit_of c = Some k ->
  int_of_str s
  = match digits_value false 0 (String c rest) with
    | Some n => OK n
    | None => Raise (ValueError ("invalid literal for int() with base 10: '" ++ s ++ "'"))
    end.
Proof.
  intros Hstrip Hdigit. unfold int_of_str. rewrite Hstrip.
  destruct c as [[] [] [] [] [] [] [] []]; cbn in Hdigit; try discriminate Hdigit; reflexivity.
Qed.

Lemma int_of_str_of_int (n : Z) : int_of_str (str_of_int n) = OK n.
Proof.
  unfold str_of_int. destruct n as [| p | p]; [reflexivity | |].
  - cbn [Z.to_int NilZero.string_of_int].
    pose proof (DecimalPos.Unsigned.to_uint_nonnil p) as Hnil.
    rewrite (string_of_uint_nonnil _ Hnil).
    pose proof (digits_value_false _ 0 Hnil) as Hvalue.
    pose proof (strip_no_space _ (string_of_uint_no_space (Pos.to_uint p))) as Hstrip.
    destruct (Pos.to_uint p) eqn:Hd; [contradiction | ..];
      cbn [NilEmpty.string_of_uint] in *;
      (erewrite int_of_str_unsigned; [| exact Hstrip | reflexivity]);
      rewrite Hvalue, <- Hd, uint_value_to_uint; reflexivity.
  - cbn [Z.to_int NilZero.string_of_int].
    pose proof (DecimalPos.Unsigned.to_uint_nonnil p) as Hnil.
    rewrite (string_of_uint_nonnil _ Hnil).
    unfold int_of_str. rewrite strip_no_space.
    + rewrite (digits_value_false _ 0 Hnil), uint_value_to_uint. reflexivity.
    + unfold no_space. cbn [list_ascii_of_string]. constructor; [reflexivity |].
      apply string_of_uint_no_space.
Qed.

Lemma str_of_int_no_dot (n : Z) : occurrences "." (str_of_int n) = 0%nat.
Proof.
  unfold str_of_int. destruct n as [| p | p]; [reflexivity | |];
    cbn [Z.to_int NilZero.string_of_int];
    rewrite (string_of_uint_nonnil _ (DecimalPos.Unsigned.to_uint_nonnil p));
    [| cbn]; apply string_of_uint_no_dot.
Qed.

Lemma accession_with_version (identifier : string) (version : Z) :
  occurrences "." identifier = 0%nat ->
  _get_transcript_id_and_version (identifier ++ "." ++ str_of_int version)
  = OK (identifier, Some version).
Proof.
  intros Hid. unfold _get_transcript_id_and_version.
  change ("." ++ str_of_int version)%string with (String "." (str_of_int version)).
  rewrite (split_on_first _ _ _ Hid), (split_on_absent _ _ (str_of_int_no_dot version)).
  unfold rbind. rewrite int_of_str_of_int. reflexivity.
Qed.

Lemma accession_without_version (transcript_accession : string) :
  occurrences "." transcript_accession <> 1%nat ->
  _get_transcript_id_and_version transcript_accession = OK (transcript_accession, None).
Proof.
  intros Hdots. unfold _get_transcript_id_and_version.
  pose proof (split_on_length "." transcript_accession) as Hlen.
  destruct (split_on "." transcript_accession) as [| a [| b [| c parts]]]; try reflexivity.
  cbn in Hlen. exfalso. apply Hdots. lia.
Qed.

(** X1: an accession made of a dot-free identifier, a dot and the
    decimal form of an integer is read back as that identifier and that
    integer. *)
Theorem X1_versioned_accession_round_trip (identifier : string) (version : Z) :
  occurrences "." identifier = 0%nat ->
  _get_transcript_id_and_version (identifier ++ "." ++ str_of_int version)
  = OK (identifier, Some version).
Proof. apply accession_with_version. Qed.

Lemma X1_versioned_accession_round_trip_witness :
  _get_transcript_id_and_version ("ENST00000380152" ++ "." ++ str_of_int 7)
  = OK ("ENST00000380152", Some 7).
Proof.
  apply (X1_versioned_accession_round_trip "ENST00000380152" 7). reflexivity.
Defined.

(** X2: an accession without a dot, or with two dots or more, is taken
    whole as the identifier, with no version. *)
Theorem X2_unversioned_accession (transcript_accession : string) :
  occurrences "." transcript_accession <> 1%nat ->
  _get_transcript_id_and_version transcript_accession = OK (transcript_accession, None).
Proof. apply accession_without_version. Qed.

Lemma X2_unversioned_accession_witness :
  _get_transcript_id_and_version "ENST00000380152" = OK ("ENST00000380152", None)
  /\ _get_transcript_id_and_version "NM_000059.3.1" = OK ("NM_000059.3.1", None).
Proof.
  split.
  - apply (X2_unversioned_accession "ENST00000380152"). vm_compute. discriminate.
  - apply (X2_unversioned_accession "NM_000059.3.1"). vm_compute. discriminate.
Defined.

(** X3: when the part after the single dot of an accession is not an
    integer literal, a lookup that misses the cache raises the
    [ValueError] of [int] and issues no request; [get_tx_info] and
    [get_tx_exons] raise it too and leave the state as it was. *)
Theorem X3_malformed_version_stops_before_fetch
    (requests_get : list string -> string -> response)
    (identifier version alt_ac : string) (s : state) (e : exn) :
  occurrences "." identifier = 0%nat ->
  occurrences "." version = 0%nat ->
  int_of_str version = Raise e ->
  transcript_results (self s) !! (identifier ++ "." ++ version)%string = None ->
  let tx_ac := (identifier ++ "." ++ version)%string in
  _get_transcript_results requests_get tx_ac s = (Raise e, s)
  /\ get_tx_info requests_get tx_ac alt_ac NCBI_ALN_METHOD s = (Raise e, s)
  /\ get_tx_exons requests_get tx_ac alt_ac NCBI_ALN_METHOD s = (Raise e, s).
Proof.
  intros Hid Hversion Hint Hmiss tx_ac.
  assert (Hparse : _get_transcript_id_and_version tx_ac = Raise e).
  { unfold _get_transcript_id_and_version, tx_ac.
    change ("." ++ version)%string with (String "." version).
    rewrite (split_on_first _ _ _ Hid), (split_on_absent _ _ Hversion).
    unfold rbind. rewrite Hint. reflexivity. }
  assert (Hrun : _get_transcript_results requests_get tx_ac s = (Raise e, s)).
  { destruct (_get_transcript_results requests_get tx_ac s) as [r s'] eqn:Hrun.
    destruct (get_transcript_results_miss _ _ _ _ _ Hmiss Hrun)
      as [(e' & -> & -> & Hraise) | (idv & Hok & _)].
    - fold tx_ac in Hraise. rewrite Hparse in Hraise. injection Hraise as <-. reflexivity.
    - fold tx_ac in Hok. rewrite Hparse in Hok. discriminate. }
  split; [exact Hrun |]. split.
  - rewrite get_tx_info_splign, Hrun. reflexivity.
  - rewrite get_tx_exons_splign, Hrun. reflexivity.
Qed.

Lemma X3_malformed_version_stops_before_fetch_witness :
  _get_transcript_results Example.archive "ENST00000380152.x7" Example.fresh
  = (Raise (ValueError "invalid literal for int() with base 10: 'x7'"), Example.fresh).
Proof.
  apply (X3_malformed_version_stops_before_fetch Example.archive "ENST00000380152" "x7"
           Example.contig38 Example.fresh); reflexivity.
Defined.

Lemma init_base_url
    (get_ac_name_map get_name_ac_map : string -> result (gmap string string))
    (assemblies : option (list string)) (p0 : provider) :
  __init__ get_ac_name_map get_name_ac_map assemblies = OK p0 ->
  base_url p0 = "https://tark.ensembl.org/api".
Proof.
  unfold __init__, rbind.
  destruct (load_assemblies _ _ _ _ _) as [loaded |]; [| discriminate].
  intros [= <-]. reflexivity.
Qed.

Lemma transcript_url_tark (stable_id : string) (version : option Z) :
  transcript_url "https://tark.ensembl.org/api" stable_id version
  = ("https://tark.ensembl.org/api/transcript/?stable_id=" ++ stable_id
     ++ "&stable_id_version=" ++ format_version version ++ "&expand_all=true")%string.
Proof.
  unfold transcript_url.
  change (os_path_join "https://tark.ensembl.org/api" "transcript/?")
    with "https://tark.ensembl.org/api/transcript/?".
  cbn [join].
  change "https://tark.ensembl.org/api/transcript/?stable_id="
    with ("https://tark.ensembl.org/api/transcript/?" ++ "stable_id=")%string.
  change "&stable_id_version=" with ("&" ++ "stable_id_version=")%string.
  change "&expand_all=true" with ("&" ++ "expand_all=true")%string.
  rewrite !string_app_assoc. reflexivity.
Qed.

(** X4: on a constructed provider, after any calls, a lookup that misses
    the cache requests exactly one URL: for an accession without a dot it
    carries the accession as [stable_id] and the text "None" as
    [stable_id_version]; for a dot-free identifier followed by a dot and
    an integer it carries the identifier and the decimal form of the
    integer. *)
Theorem X4_lookup_url
    (get_ac_name_map get_name_ac_map : string -> result (gmap string string))
    (requests_get : list string -> string -> response)
    (assemblies : option (list string)) (p0 : provider) (calls : list call) :
  __init__ get_ac_name_map get_name_ac_map assemblies = OK p0 ->
  let s := run_calls requests_get calls (initial_state p0) in
  (forall tx_ac,
      occurrences "." tx_ac = 0%nat ->
      transcript_results (self s) !! tx_ac = None ->
      requests_log (snd (_get_transcript_results requests_get tx_ac s))
      = ("https://tark.ensembl.org/api/transcript/?stable_id=" ++ tx_ac
         ++ "&stable_id_version=None&expand_all=true")%string :: requests_log s)
  /\ (forall identifier version,
        occurrences "." identifier = 0%nat ->
        transcript_results (self s) !! (identifier ++ "." ++ str_of_int version)%string = None ->
        requests_log (snd (_get_transcript_results requests_get
                             (identifier ++ "." ++ str_of_int version) s))
        = ("https://tark.ensembl.org/api/transcript/?stable_id=" ++ identifier
           ++ "&stable_id_version=" ++ str_of_int version ++ "&expand_all=true")%string
          :: requests_log s).
Proof.
  intros Hinit s.
  assert (Hbase : base_url (self s) = "https://tark.ensembl.org/api").
  { pose proof (run_calls_directory requests_get calls (initial_state p0)) as Hdir.
    injection Hdir as Hbase _ _ _. fold s in Hbase. rewrite Hbase.
    apply (init_base_url _ _ _ _ Hinit). }
  assert (Hurl : forall tx_ac id_version,
             _get_transcript_id_and_version tx_ac = OK id_version ->
             transcript_results (self s) !! tx_ac = None ->
             requests_log (snd (_get_transcript_results requests_get tx_ac s))
             = transcript_url "https://tark.ensembl.org/api" (fst id_version) (snd id_version)
               :: requests_log s).
  { intros tx_ac idv Hparse Hmiss.
    destruct (_get_transcript_results requests_get tx_ac s) as [r s'] eqn:Hrun.
    destruct (get_transcript_results_miss _ _ _ _ _ Hmiss Hrun)
      as [(e' & _ & _ & Hraise) | (idv' & Hok & Hlog & _)].
    - rewrite Hparse in Hraise. discriminate.
    - rewrite Hparse in Hok. injection Hok as <-. cbn. rewrite Hlog, Hbase. reflexivity. }
  split.
  - intros tx_ac Hdots Hmiss.
    rewrite (Hurl tx_ac (tx_ac, None)); [| apply accession_without_version; lia | exact Hmiss].
    rewrite transcript_url_tark. reflexivity.
  - intros identifier version Hdots Hmiss.
    rewrite (Hurl _ (identifier, Some version));
      [| apply accession_with_version; exact Hdots | exact Hmiss].
    rewrite transcript_url_tark. reflexivity.
Qed.

Lemma X4_lookup_url_witness :
  requests_log (snd (_get_transcript_results Example.archive "ENST00000380152" Example.fresh))
  = ["https://tark.ensembl.org/api/transcript/?stable_id=ENST00000380152&stable_id_version=None&expand_all=true"]
  /\ requests_log (snd (_get_transcript_results Example.archive
                          ("ENST00000380152" ++ "." ++ str_of_int 7) Example.fresh))
     = ["https://tark.ensembl.org/api/transcript/?stable_id=ENST00000380152&stable_id_version=7&expand_all=true"].
Proof.
  destruct (X4_lookup_url Example.ac_name_map Example.name_ac_map Example.archive None
              Example.tark []) as [Hplain Hversioned].
  - vm_compute. reflexivity.
  - split.
    + apply (Hplain "ENST00000380152"); reflexivity.
    + apply (Hversioned "ENST00000380152" 7); reflexivity.
Defined.

(** *** Requests and the cache *)

(** X5: every call of the fetcher logs exactly its URL and leaves the
    provider alone.  A response that is not ok gives [None], not an
    error; an ok response whose Content-Type contains "application/json"
    gives the parsed body, or the decoding error when the body is not
    JSON. *)
Theorem X5_fetcher_outcomes
    (requests_get : list string -> string -> response) (url : string) (s : state) :
  snd (_get_from_url requests_get url s)
  = {| self := self s; requests_log := url :: requests_log s |}
  /\ (ok (requests_get (requests_log s) url) = false ->
      fst (_get_from_url requests_get url s) = OK JNull)
  /\ (forall header,
        ok (requests_get (requests_log s) url) = true ->
        content_type (requests_get (requests_log s) url) = Some header ->
        contains "application/json" header = true ->
        fst (_get_from_url requests_get url s)
        = match json_body (requests_get (requests_log s) url) with
          | Some data => OK data
          | None => Raise JSONDecodeError
          end).
Proof.
  split; [apply get_from_url_state |].
  unfold _get_from_url, bind, http_get, ret, raise. cbn. split.
  - intros ->. reflexivity.
  - intros header -> -> ->. destruct (json_body _); reflexivity.
Qed.

Lemma X5_fetcher_outcomes_witness :
  fst (_get_from_url Example.archive_not_found "https://tark.ensembl.org/api/transcript/?"
         Example.fresh) = OK JNull.
Proof.
  apply (X5_fetcher_outcomes Example.archive_not_found
           "https://tark.ensembl.org/api/transcript/?" Example.fresh).
  reflexivity.
Defined.

(** With an unsupported method both operations leave the state alone. *)
Lemma unsupported_method_state
    (requests_get : list string -> string -> response)
    (tx_ac alt_ac alt_aln_method : string) (s : state) :
  alt_aln_method <> NCBI_ALN_METHOD ->
  snd (get_tx_info requests_get tx_ac alt_ac alt_aln_method s) = s
  /\ snd (get_tx_exons requests_get tx_ac alt_ac alt_aln_method s) = s.
Proof.
  intros Hne. unfold get_tx_info, get_tx_exons, bind.
  rewrite (check_alt_aln_method_other _ _ Hne). split; reflexivity.
Qed.

(** A lookup changes the cache at its own key at most. *)
Lemma get_transcript_results_frame
    (requests_get : list string -> string -> response) (tx_ac k : string) (s : state) :
  k <> tx_ac ->
  transcript_results (self (snd (_get_transcript_results requests_get tx_ac s))) !! k
  = transcript_results (self s) !! k.
Proof.
  intros Hne.
  destruct (transcript_results (self s) !! tx_ac) as [cached |] eqn:Hcache.
  - rewrite (get_transcript_results_hit _ _ _ _ Hcache). reflexivity.
  - destruct (_get_transcript_results requests_get tx_ac s) as [r s'] eqn:Hrun.
    destruct (get_transcript_results_miss _ _ _ _ _ Hcache Hrun)
      as [(e & _ & -> & _)
         | (idv & _ & _ & [(e & _ & Hself) | (d & res & _ & _ & _ & _ & Hself)])];
      cbn; [reflexivity | rewrite Hself; reflexivity |].
    rewrite Hself. cbn. apply lookup_insert_ne. congruence.
Qed.

(** A lookup keeps what is cached. *)
Lemma get_transcript_results_keeps
    (requests_get : list string -> string -> response) (tx_ac k : string) (v : json)
    (s : state) :
  transcript_results (self s) !! k = Some v ->
  transcript_results (self (snd (_get_transcript_results requests_get tx_ac s))) !! k = Some v.
Proof.
  intros Hk. destruct (decide (k = tx_ac)) as [-> | Hne].
  - rewrite (get_transcript_results_hit _ _ _ _ Hk). exact Hk.
  - rewrite (get_transcript_results_frame _ _ _ _ Hne). exact Hk.
Qed.

(** X6: what the cache holds for an accession stays there, with the same
    value, through any sequence of calls: nothing is evicted or replaced. *)
Theorem X6_cached_results_persist
    (requests_get : list string -> string -> response)
    (calls : list call) (s : state) (k : string) (v : json) :
  transcript_results (self s) !! k = Some v ->
  transcript_results (self (run_calls requests_get calls s)) !! k = Some v.
Proof.
  intros Hk.
  apply (run_calls_invariant requests_get
           (fun s' => transcript_results (self s') !! k = Some v)); [| exact Hk].
  intros tx_ac s' Hs'. apply get_transcript_results_keeps. exact Hs'.
Qed.

Lemma X6_cached_results_persist_witness :
  transcript_results
    (self (run_calls Example.archive_not_found
             [CallTxInfo "ENST00000380152" Example.contig38 NCBI_ALN_METHOD;
              CallTxExons Example.tx_ac Example.contig37 NCBI_ALN_METHOD]
             Example.after_lookup)) !! Example.tx_ac
  = Some (JList [Example.record37; Example.record38]).
Proof.
  apply (X6_cached_results_persist Example.archive_not_found). vm_compute. reflexivity.
Defined.

(** X7: a lookup, and so [get_tx_info] and [get_tx_exons], leaves the
    cache entries of every other accession as they were; in particular
    the versioned and the unversioned form of an accession are cached
    apart. *)
Theorem X7_lookup_touches_own_key_only
    (requests_get : list string -> string -> response)
    (tx_ac alt_ac alt_aln_method k : string) (s : state) :
  k <> tx_ac ->
  transcript_results (self (snd (_get_transcript_results requests_get tx_ac s))) !! k
  = transcript_results (self s) !! k
  /\ transcript_results (self (snd (get_tx_info requests_get tx_ac alt_ac alt_aln_method s))) !! k
     = transcript_results (self s) !! k
  /\ transcript_results (self (snd (get_tx_exons requests_get tx_ac alt_ac alt_aln_method s))) !! k
     = transcript_results (self s) !! k.
Proof.
  intros Hne.
  pose proof (get_transcript_results_frame requests_get _ _ s Hne) as Hframe.
  split; [exact Hframe |].
  destruct (String.eqb_spec alt_aln_method NCBI_ALN_METHOD) as [-> | Hm].
  - rewrite get_tx_info_splign, get_tx_exons_splign.
    destruct (_get_transcript_results requests_get tx_ac s) as [[res | e] s'];
      split; exact Hframe.
  - destruct (unsupported_method_state requests_get tx_ac alt_ac alt_aln_method s Hm) as [-> ->].
    split; reflexivity.
Qed.

Lemma X7_lookup_touches_own_key_only_witness :
  transcript_results
    (self (snd (_get_transcript_results Example.archive Example.tx_ac Example.fresh)))
    !! "ENST00000380152"
  = transcript_results (self Example.fresh) !! "ENST00000380152".
Proof.
  apply (X7_lookup_touches_own_key_only Example.archive Example.tx_ac Example.contig38
           NCBI_ALN_METHOD "ENST00000380152" Example.fresh).
  discriminate.
Defined.

(** X8: each call that goes through the cache issues one request at most;
    when the accession is cached it issues none and leaves the state as
    it is. *)
Theorem X8_at_most_one_request
    (requests_get : list string -> string -> response) (s : state) :
  (forall c,
      requests_log (run_call requests_get c s) = requests_log s
      \/ exists url, requests_log (run_call requests_get c s) = url :: requests_log s)
  /\ (forall tx_ac alt_ac alt_aln_method,
        is_Some (transcript_results (self s) !! tx_ac) ->
        snd (get_tx_info requests_get tx_ac alt_ac alt_aln_method s) = s
        /\ snd (get_tx_exons requests_get tx_ac alt_ac alt_aln_method s) = s
        /\ snd (get_transcript_sequence requests_get tx_ac s) = s).
Proof.
  split.
  - intros c. destruct (run_call_state requests_get c s) as [-> | [tx_ac ->]];
      [left; reflexivity |].
    destruct (transcript_results (self s) !! tx_ac) as [cached |] eqn:Hcache.
    + rewrite (get_transcript_results_hit _ _ _ _ Hcache). left. reflexivity.
    + destruct (_get_transcript_results requests_get tx_ac s) as [r s'] eqn:Hrun.
      destruct (get_transcript_results_miss _ _ _ _ _ Hcache Hrun)
        as [(e & _ & -> & _) | (idv & _ & Hlog & _)]; cbn; [left; reflexivity |].
      right. eexists. exact Hlog.
  - intros tx_ac alt_ac m [cached Hcache].
    pose proof (get_transcript_results_hit requests_get _ _ _ Hcache) as Hhit.
    assert (Hpublic : forall c,
               run_call requests_get c s = s
               \/ run_call requests_get c s
                  = snd (_get_transcript_results requests_get tx_ac s) ->
               run_call requests_get c s = s).
    { intros c [H | H]; [exact H | rewrite H, Hhit; reflexivity]. }
    split; [| split].
    + apply (Hpublic (CallTxInfo tx_ac alt_ac m)).
      destruct (String.eqb_spec m NCBI_ALN_METHOD) as [-> | Hm].
      * right. cbn [run_call]. rewrite get_tx_info_splign.
        destruct (_get_transcript_results requests_get tx_ac s) as [[res | e] s']; reflexivity.
      * left. cbn [run_call].
        destruct (unsupported_method_state requests_get tx_ac alt_ac m s Hm) as [-> _]. reflexivity.
    + apply (Hpublic (CallTxExons tx_ac alt_ac m)).
      destruct (String.eqb_spec m NCBI_ALN_METHOD) as [-> | Hm].
      * right. cbn [run_call]. rewrite get_tx_exons_splign.
        destruct (_get_transcript_results requests_get tx_ac s) as [[res | e] s']; reflexivity.
      * left. cbn [run_call].
        destruct (unsupported_method_state requests_get tx_ac alt_ac m s Hm) as [_ ->]. reflexivity.
    + unfold get_transcript_sequence, bind, lift. rewrite Hhit. reflexivity.
Qed.

Lemma X8_at_most_one_request_witness :
  snd (get_tx_info Example.archive_not_found Example.tx_ac Example.contig38 NCBI_ALN_METHOD
         Example.after_lookup) = Example.after_lookup.
Proof.
  destruct (X8_at_most_one_request Example.archive_not_found Example.after_lookup)
    as [_ Hcached].
  apply (Hcached Example.tx_ac Example.contig38 NCBI_ALN_METHOD).
  vm_compute. eauto.
Defined.

(** *** Exon alignments and transcript info *)

Lemma exon_alignment_copies (tx_ac alt_ac : string) (alt_strand : json)
    (alt_aln_method : string) (pos : Z) (exon : json) (e : ExonData.t) :
  exon_alignment tx_ac alt_ac alt_strand alt_aln_method pos exon = OK e ->
  copies_exon tx_ac alt_ac alt_aln_method alt_strand exon e.
Proof.
  unfold exon_alignment, rbind.
  destruct (getitem exon "loc_end") as [loc_end |] eqn:Hend; [| discriminate].
  destruct (getitem exon "loc_start") as [loc_start |] eqn:Hstart; [| discriminate].
  destruct (sub loc_end loc_start) as [d |]; [| discriminate].
  destruct (getitem exon "exon_order") as [ord |] eqn:Hord; [| discriminate].
  intros [= <-]. unfold copies_exon. cbn.
  repeat split; assumption.
Qed.

Lemma exons_loop_Forall2 (R : json -> ExonData.t -> Prop)
    (tx_ac alt_ac : string) (alt_strand : json) (alt_aln_method : string) (pos : Z) :
  (forall exon e,
      exon_alignment tx_ac alt_ac alt_strand alt_aln_method pos exon = OK e -> R exon e) ->
  forall (exons : list json) (acc out : list ExonData.t),
    exons_loop tx_ac alt_ac alt_strand alt_aln_method pos exons acc = OK out ->
    exists new, out = (acc ++ new)%list /\ Forall2 R exons new.
Proof.
  intros Hbody exons. induction exons as [| exon rest IH]; intros acc out Hloop.
  - injection Hloop as <-. exists []. split; [symmetry; apply app_nil_r | constructor].
  - cbn in Hloop. unfold rbind in Hloop.
    destruct (exon_alignment tx_ac alt_ac alt_strand alt_aln_method pos exon)
      as [e |] eqn:He; [| discriminate].
    destruct (IH _ _ Hloop) as (new & -> & Hnew).
    exists (e :: new). split; [rewrite <- app_assoc; reflexivity |].
    constructor; [eauto | exact Hnew].
Qed.

(** X9: when [get_tx_exons] returns a list, it has one alignment per exon
    of the record the resolver chose, in the order of the record; each
    alignment carries the arguments of the call, the [loc_strand] of the
    record and the [exon_order], [loc_start] and [loc_end] of its exon,
    unchanged. *)
Theorem X9_one_alignment_per_exon
    (requests_get : list string -> string -> response)
    (tx_ac alt_ac alt_aln_method : string) (s s' : state) (tx_exons : list ExonData.t) :
  get_tx_exons requests_get tx_ac alt_ac alt_aln_method s = (OK (Some tx_exons), s') ->
  exists results transcript alt_strand exons items,
    _get_transcript_results requests_get tx_ac s = (OK results, s')
    /\ _get_transcript_for_contig (self s') results alt_ac = OK transcript
    /\ getitem transcript "loc_strand" = OK alt_strand
    /\ getitem transcript "exons" = OK exons
    /\ iter exons = OK items
    /\ Forall2 (copies_exon tx_ac alt_ac alt_aln_method alt_strand) items tx_exons
    /\ List.length tx_exons = List.length items.
Proof.
  intros Hrun.
  destruct (get_tx_exons_returns _ _ _ _ _ _ _ Hrun) as (_ & results & Hlookup & Hpure).
  unfold tx_exons_of, rbind in Hpure.
  destruct (negb (truthy results)); [discriminate |].
  destruct (_get_transcript_for_contig (self s') results alt_ac) as [transcript |] eqn:Hres;
    [| discriminate].
  destruct (getitem transcript "loc_strand") as [alt_strand |] eqn:Hstrand; [| discriminate].
  destruct (getitem transcript "exons") as [exons |] eqn:Hexons; [| discriminate].
  destruct (iter exons) as [items |] eqn:Hitems; [| discriminate].
  destruct (exons_loop tx_ac alt_ac alt_strand alt_aln_method 0 items [])
    as [out |] eqn:Hloop; [| discriminate].
  injection Hpure as <-.
  destruct (exons_loop_Forall2 (copies_exon tx_ac alt_ac alt_aln_method alt_strand)
              tx_ac alt_ac alt_strand alt_aln_method 0
              (exon_alignment_copies tx_ac alt_ac alt_strand alt_aln_method 0)
              _ _ _ Hloop) as (new & -> & Hnew).
  exists results, transcript, alt_strand, exons, items. cbn [app].
  repeat (split; [first [exact Hlookup | reflexivity | assumption] |]).
  symmetry. eapply Forall2_length. exact Hnew.
Qed.

Lemma X9_one_alignment_per_exon_witness :
  exists results transcript alt_strand exons items,
    _get_transcript_results Example.archive Example.tx_ac Example.fresh
    = (OK results, Example.after_lookup)
    /\ _get_transcript_for_contig (self Example.after_lookup) results Example.contig38
       = OK transcript
    /\ getitem transcript "loc_strand" = OK alt_strand
    /\ getitem transcript "exons" = OK exons
    /\ iter exons = OK items
    /\ Forall2 (copies_exon Example.tx_ac Example.contig38 NCBI_ALN_METHOD alt_strand) items
         [Example.alignment1; Example.alignment2]
    /\ List.length [Example.alignment1; Example.alignment2] = List.length items.
Proof.
  apply (X9_one_alignment_per_exon Example.archive Example.tx_ac Example.contig38
           NCBI_ALN_METHOD Example.fresh Example.after_lookup).
  vm_compute. reflexivity.
Defined.

(** X10: as the loop is written, every alignment [get_tx_exons] returns
    has [tx_start_i] 0, whatever its position in the list. *)
Theorem X10_alignments_start_at_zero
    (requests_get : list string -> string -> response)
    (tx_ac alt_ac alt_aln_method : string) (s s' : state)
    (tx_exons : list ExonData.t) (e : ExonData.t) :
  get_tx_exons requests_get tx_ac alt_ac alt_aln_method s = (OK (Some tx_exons), s') ->
  e ∈ tx_exons ->
  ExonData.tx_start_i e = 0.
Proof.
  intros Hrun Hin.
  pose proof (get_tx_exons_starts_at_zero _ _ _ _ _ _ _ Hrun) as Hall.
  rewrite Forall_forall in Hall. apply (Hall e Hin).
Qed.

Lemma X10_alignments_start_at_zero_witness :
  ExonData.tx_start_i Example.alignment2 = 0.
Proof.
  apply (X10_alignments_start_at_zero Example.archive Example.tx_ac Example.contig38
           NCBI_ALN_METHOD Example.fresh Example.after_lookup
           [Example.alignment1; Example.alignment2]).
  - vm_compute. reflexivity.
  - apply list_elem_of_In. right. left. reflexivity.
Defined.

(** A lookup that returns has its results in the cache. *)
Lemma get_transcript_results_cached
    (requests_get : list string -> string -> response)
    (tx_ac : string) (s s' : state) (results : json) :
  _get_transcript_results requests_get tx_ac s = (OK results, s') ->
  transcript_results (self s') !! tx_ac = Some results.
Proof.
  intros Hrun.
  destruct (transcript_results (self s) !! tx_ac) as [cached |] eqn:Hcache.
  - rewrite (get_transcript_results_hit _ _ _ _ Hcache) in Hrun.
    injection Hrun as <- <-. exact Hcache.
  - destruct (get_transcript_results_miss _ _ _ _ _ Hcache Hrun)
      as [(e & He & _) | (idv & _ & _ & [(e & He & _) | (d & res & Hr & _ & _ & _ & Hself)])];
      try discriminate.
    injection Hr as <-. rewrite Hself. cbn. apply lookup_insert_eq.
Qed.

(** X11: when the results are there but the resolver finds no record for
    the assembly of the contig, [get_tx_exons] and [get_tx_info] both
    raise [TypeError] (they subscript the [None] of the resolver), and
    the results stay cached. *)
Theorem X11_no_record_for_contig
    (requests_get : list string -> string -> response)
    (tx_ac alt_ac : string) (s s' : state) (results : json) :
  _get_transcript_results requests_get tx_ac s = (OK results, s') ->
  truthy results = true ->
  _get_transcript_for_contig (self s') results alt_ac = OK JNull ->
  get_tx_exons requests_get tx_ac alt_ac NCBI_ALN_METHOD s = (Raise TypeError, s')
  /\ get_tx_info requests_get tx_ac alt_ac NCBI_ALN_METHOD s = (Raise TypeError, s')
  /\ transcript_results (self s') !! tx_ac = Some results.
Proof.
  intros Hlookup Htruthy Hnone.
  rewrite get_tx_exons_splign, get_tx_info_splign, Hlookup.
  unfold tx_exons_of, tx_info_of, rbind. rewrite Htruthy, Hnone. cbn.
  repeat split. eapply get_transcript_results_cached. exact Hlookup.
Qed.

Lemma X11_no_record_for_contig_witness :
  get_tx_exons Example.archive38 Example.tx_ac Example.contig37 NCBI_ALN_METHOD Example.fresh
  = (Raise TypeError, snd (_get_transcript_results Example.archive38 Example.tx_ac Example.fresh)).
Proof.
  apply (X11_no_record_for_contig Example.archive38 Example.tx_ac Example.contig37
           Example.fresh _ (JList [Example.record38])); vm_compute; reflexivity.
Defined.

(** X12: the contig is checked after the lookup: for a contig the
    directory does not know, [get_tx_exons] and [get_tx_info] raise the
    [ValueError] naming the contig and the configured assemblies only
    once the results have been obtained, and these stay cached. *)
Theorem X12_contig_checked_after_lookup
    (requests_get : list string -> string -> response)
    (tx_ac alt_ac : string) (s s' : state) (results : json) :
  _get_transcript_results requests_get tx_ac s = (OK results, s') ->
  truthy results = true ->
  assembly_by_contig (self s) !! alt_ac = None ->
  let unsupported :=
    ValueError ("Contig '" ++ alt_ac ++ "' not supported. Supported assemblies: "
                ++ join ", " (List.map fst (assembly_maps (self s)))) in
  get_tx_exons requests_get tx_ac alt_ac NCBI_ALN_METHOD s = (Raise unsupported, s')
  /\ get_tx_info requests_get tx_ac alt_ac NCBI_ALN_METHOD s = (Raise unsupported, s')
  /\ transcript_results (self s') !! tx_ac = Some results.
Proof.
  intros Hlookup Htruthy Hcontig unsupported.
  pose proof (get_transcript_results_directory requests_get tx_ac s) as Hdir.
  rewrite Hlookup in Hdir. injection Hdir as _ Hmaps _ Hby.
  rewrite get_tx_exons_splign, get_tx_info_splign, Hlookup.
  unfold tx_exons_of, tx_info_of, _get_transcript_for_contig, rbind.
  cbn [snd] in Hmaps, Hby. rewrite Htruthy, Hby, Hcontig, Hmaps. cbn.
  repeat split. eapply get_transcript_results_cached. exact Hlookup.
Qed.

Lemma X12_contig_checked_after_lookup_witness :
  get_tx_info Example.archive Example.tx_ac "NC_000019.10" NCBI_ALN_METHOD Example.fresh
  = (Raise (ValueError
              "Contig 'NC_000019.10' not supported. Supported assemblies: GRCh37, GRCh38"),
     Example.after_lookup).
Proof.
  apply (X12_contig_checked_after_lookup Example.archive Example.tx_ac "NC_000019.10"
           Example.fresh Example.after_lookup (JList [Example.record37; Example.record38]));
    vm_compute; reflexivity.
Defined.

(** X13: when [get_tx_info] returns, the method was "splign" and the info
    carries the accession and the contig of the call, the method
    "splign", the name of the first gene of the record the resolver
    chose, and the CDS boundaries the calculator gives for that record. *)
Theorem X13_tx_info_contents
    (requests_get : list string -> string -> response)
    (tx_ac alt_ac alt_aln_method : string) (s s' : state) (tx_info : TxInfo.t) :
  get_tx_info requests_get tx_ac alt_ac alt_aln_method s = (OK tx_info, s') ->
  alt_aln_method = NCBI_ALN_METHOD
  /\ TxInfo.tx_ac tx_info = Some tx_ac
  /\ TxInfo.alt_ac tx_info = Some alt_ac
  /\ TxInfo.alt_aln_method tx_info = Some "splign"
  /\ exists results transcript genes gene,
       _get_transcript_results requests_get tx_ac s = (OK results, s')
       /\ _get_transcript_for_contig (self s') results alt_ac = OK transcript
       /\ getitem transcript "genes" = OK genes
       /\ getitem0 genes = OK gene
       /\ getitem gene "name" = OK (TxInfo.hgnc tx_info)
       /\ _get_cds_start_end transcript
          = OK (TxInfo.cds_start_i tx_info, TxInfo.cds_end_i tx_info).
Proof.
  intros Hrun.
  destruct (String.eqb_spec alt_aln_method NCBI_ALN_METHOD) as [-> | Hne].
  2:{ unfold get_tx_info, bind in Hrun.
      rewrite (check_alt_aln_method_other _ _ Hne) in Hrun. discriminate. }
  rewrite get_tx_info_splign in Hrun.
  destruct (_get_transcript_results requests_get tx_ac s) as [[results | e] s1] eqn:Hlookup;
    [| discriminate].
  injection Hrun as Hpure <-.
  unfold tx_info_of, _get_transcript_info, rbind in Hpure.
  destruct (truthy results); [| discriminate].
  destruct (_get_transcript_for_contig (self s1) results alt_ac) as [transcript |] eqn:Hres;
    [| discriminate].
  destruct (getitem transcript "genes") as [genes |] eqn:Hgenes; [| discriminate].
  destruct (getitem0 genes) as [gene |] eqn:Hgene; [| discriminate].
  destruct (getitem gene "name") as [name |] eqn:Hname; [| discriminate].
  destruct (_get_cds_start_end transcript) as [[cds_start cds_end] |] eqn:Hcds; [| discriminate].
  injection Hpure as <-. cbn.
  repeat (split; [reflexivity |]).
  exists results, transcript, genes, gene. repeat split; assumption.
Qed.

Lemma X13_tx_info_contents_witness :
  TxInfo.tx_ac
    {| TxInfo.hgnc := JStr "BRCA2"; TxInfo.cds_start_i := Some 5; TxInfo.cds_end_i := Some 147;
       TxInfo.tx_ac := Some Example.tx_ac; TxInfo.alt_ac := Some Example.contig38;
       TxInfo.alt_aln_method := Some NCBI_ALN_METHOD |} = Some Example.tx_ac.
Proof.
  apply (X13_tx_info_contents Example.archive Example.tx_ac Example.contig38 NCBI_ALN_METHOD
           Example.fresh Example.after_lookup).
  vm_compute. reflexivity.
Defined.

(** *** What the operations never do *)

Create HintDb builtin.

Lemma rbind_builtin {A B} (r : result A) (k : A -> result B) :
  raises_builtin r -> (forall a, raises_builtin (k a)) -> raises_builtin (rbind r k).
Proof. destruct r as [a | e]; cbn; [intros _ Hk; apply Hk | intros He _; exact He]. Qed.

Lemma getitem_builtin (v : json) (k : string) : raises_builtin (getitem v k).
Proof. destruct v; cbn; try exact I. destruct (assoc k kvs); exact I. Qed.

Lemma getitem0_builtin (v : json) : raises_builtin (getitem0 v).
Proof. destruct v as [| | | s | l |]; cbn; try exact I; [destruct s | destruct l]; exact I. Qed.

Lemma iter_builtin (v : json) : raises_builtin (iter v).
Proof. destruct v; exact I. Qed.

Lemma len_builtin (v : json) : raises_builtin (len v).
Proof. destruct v; exact I. Qed.

Lemma sub_builtin (a b : json) : raises_builtin (sub a b).
Proof. unfold sub. destruct (as_int a), (as_int b); exact I. Qed.

Lemma ok_builtin {A} (a : A) : raises_builtin (OK a).
Proof. exact I. Qed.

#[local] Hint Resolve getitem_builtin getitem0_builtin iter_builtin len_builtin sub_builtin
  ok_builtin : builtin.

Ltac builtin_steps :=
  repeat first
    [ solve [auto with builtin]
    | apply rbind_builtin; [solve [auto with builtin] | intros ?]
    | match goal with
      | |- raises_builtin (if ?b then _ else _) => destruct b
      end ].

Lemma first_for_assembly_builtin (transcripts : list json) (assembly : string) :
  raises_builtin (first_for_assembly transcripts assembly).
Proof.
  induction transcripts as [| t rest IH]; [exact I |].
  cbn [first_for_assembly]. builtin_steps.
Qed.

Lemma exon_lengths_builtin (exons : list json) : raises_builtin (exon_lengths exons).
Proof.
  induction exons as [| ex rest IH]; [exact I |].
  cbn [exon_lengths]. builtin_steps.
Qed.

#[local] Hint Resolve first_for_assembly_builtin exon_lengths_builtin : builtin.

Lemma get_transcript_for_contig_builtin (p : provider) (results : json) (alt_ac : string) :
  raises_builtin (_get_transcript_for_contig p results alt_ac).
Proof.
  unfold _get_transcript_for_contig.
  destruct (assembly_by_contig p !! alt_ac); [builtin_steps | exact I].
Qed.

Lemma get_cds_start_end_builtin (transcript : json) :
  raises_builtin (_get_cds_start_end transcript).
Proof. unfold _get_cds_start_end. builtin_steps. Qed.

#[local] Hint Resolve get_transcript_for_contig_builtin get_cds_start_end_builtin : builtin.

Lemma get_transcript_info_builtin (transcript : json) :
  raises_builtin (_get_transcript_info transcript).
Proof. unfold _get_transcript_info. builtin_steps. Qed.

#[local] Hint Resolve get_transcript_info_builtin : builtin.

Lemma int_of_str_builtin (s : string) : raises_builtin (int_of_str s).
Proof.
  unfold int_of_str. cbv zeta.
  match goal with
  | |- raises_builtin (match ?parsed with Some _ => _ | None => _ end) => destruct parsed
  end; exact I.
Qed.

Lemma accession_builtin (transcript_accession : string) :
  raises_builtin (_get_transcript_id_and_version transcript_accession).
Proof.
  unfold _get_transcript_id_and_version.
  destruct (split_on "." transcript_accession) as [| a [| b [| c parts]]]; try exact I.
  apply rbind_builtin; [apply int_of_str_builtin | intros ?; exact I].
Qed.

Lemma get_from_url_builtin
    (requests_get : list string -> string -> response) (url : string) (s : state) :
  raises_builtin (fst (_get_from_url requests_get url s)).
Proof.
  unfold _get_from_url, bind, http_get, ret, raise. cbn.
  destruct (ok _); [| exact I].
  destruct (content_type _) as [header |]; [| exact I].
  destruct (contains _ header); [| exact I].
  destruct (json_body _); exact I.
Qed.

Lemma run_calls_app (requests_get : list string -> string -> response)
    (calls more : list call) (s : state) :
  run_calls requests_get (calls ++ more) s
  = run_calls requests_get more (run_calls requests_get calls s).
Proof. unfold run_calls. apply fold_left_app. Qed.

(** In the states the provider reaches, the cache holds non-empty results. *)
Lemma reachable_cache_nonempty
    (get_ac_name_map get_name_ac_map : string -> result (gmap string string))
    (requests_get : list string -> string -> response)
    (assemblies : option (list string)) (p0 : provider) (calls : list call) :
  __init__ get_ac_name_map get_name_ac_map assemblies = OK p0 ->
  forall k v,
    transcript_results (self (run_calls requests_get calls (initial_state p0))) !! k = Some v ->
    nonempty v.
Proof.
  intros Hinit.
  apply (run_calls_invariant requests_get
           (fun s => forall k v, transcript_results (self s) !! k = Some v -> nonempty v)).
  - intros tx_ac s0 Hs0. apply get_transcript_results_cache; [| exact Hs0].
    intros data results _ _ Hne. exact Hne.
  - cbn. rewrite (init_cache_empty _ _ _ _ Hinit).
    intros k v Hkv. rewrite lookup_empty in Hkv. discriminate.
Qed.

(** X14: in the states the provider reaches from its construction, the
    results a lookup returns are never empty, so [get_tx_exons] never
    returns [None] and [get_tx_info] never raises its own "No tx_info"
    error: the data-not-available error it raises is the one of the
    method gate or the one of the lookup. *)
Theorem X14_unreachable_branches
    (get_ac_name_map get_name_ac_map : string -> result (gmap string string))
    (requests_get : list string -> string -> response)
    (assemblies : option (list string)) (p0 : provider) (calls : list call)
    (tx_ac alt_ac alt_aln_method : string) :
  __init__ get_ac_name_map get_name_ac_map assemblies = OK p0 ->
  let s := run_calls requests_get calls (initial_state p0) in
  fst (get_tx_exons requests_get tx_ac alt_ac alt_aln_method s) <> OK None
  /\ (forall msg,
        fst (get_tx_info requests_get tx_ac alt_ac alt_aln_method s)
        = Raise (HGVSDataNotAvailableError msg) ->
        msg = MsgOnlySupports NCBI_ALN_METHOD
        \/ exists data, msg = MsgNoResults tx_ac data).
Proof.
  intros Hinit s.
  assert (Htruthy : forall results s',
             _get_transcript_results requests_get tx_ac s = (OK results, s') ->
             truthy results = true).
  { intros results s' Hlookup.
    pose proof (get_transcript_results_cached _ _ _ _ _ Hlookup) as Hcached.
    assert (Hreach : s' = run_calls requests_get (calls ++ [CallTranscriptResults tx_ac])
                           (initial_state p0)).
    { rewrite run_calls_app.
      change (run_calls requests_get [CallTranscriptResults tx_ac]
                (run_calls requests_get calls (initial_state p0)))
        with (snd (_get_transcript_results requests_get tx_ac s)).
      rewrite Hlookup. reflexivity. }
    rewrite Hreach in Hcached.
    apply (reachable_cache_nonempty _ _ _ _ _ _ Hinit _ _ Hcached). }
  assert (Hlookup_error : forall e s',
             _get_transcript_results requests_get tx_ac s = (Raise e, s') ->
             forall msg, e = HGVSDataNotAvailableError msg ->
                         exists data, msg = MsgNoResults tx_ac data).
  { intros e s' Hrun msg ->.
    unfold _get_transcript_results, bind, gets, lift in Hrun.
    cbn -[_get_from_url _get_transcript_id_and_version] in Hrun.
    destruct (transcript_results (self s) !! tx_ac); [discriminate |].
    pose proof (accession_builtin tx_ac) as Hparse.
    destruct (_get_transcript_id_and_version tx_ac) as [idv | e0].
    2:{ injection Hrun as He _. subst e0. destruct Hparse. }
    pose proof (get_from_url_builtin requests_get
                  (transcript_url (base_url (self s)) (fst idv) (snd idv)) s) as Hfetch.
    destruct (_get_from_url requests_get _ s) as [[data | e1] s1].
    2:{ injection Hrun as He _. subst e1. destruct Hfetch. }
    pose proof (getitem_builtin data "results") as Hget.
    destruct (getitem data "results") as [results | e2].
    2:{ cbn in Hrun. injection Hrun as He _. subst e2. destruct Hget. }
    destruct (truthy results).
    2:{ cbn in Hrun. injection Hrun as He _. subst msg. eauto. }
    pose proof (len_builtin results) as Hlen.
    destruct (len results) as [n | e3].
    2:{ cbn in Hrun. injection Hrun as He _. subst e3. destruct Hlen. }
    destruct (1 <=? n); cbn in Hrun; [discriminate |].
    injection Hrun as He _. subst msg. eauto. }
  destruct (String.eqb_spec alt_aln_method NCBI_ALN_METHOD) as [-> | Hne].
  2:{ unfold get_tx_exons, get_tx_info, bind.
      rewrite (check_alt_aln_method_other _ _ Hne). cbn.
      split; [discriminate |]. intros msg [= <-]. left. reflexivity. }
  rewrite get_tx_exons_splign, get_tx_info_splign.
  destruct (_get_transcript_results requests_get tx_ac s) as [[results | e] s'] eqn:Hlookup;
    cbn [fst].
  - pose proof (Htruthy _ _ eq_refl) as Ht.
    unfold tx_exons_of, tx_info_of. rewrite Ht. cbn [negb]. split.
    + unfold rbind.
      destruct (_get_transcript_for_contig (self s') results alt_ac); [| discriminate].
      destruct (getitem _ "loc_strand"); [| discriminate].
      destruct (getitem _ "exons"); [| discriminate].
      destruct (iter _); [| discriminate].
      destruct (exons_loop _ _ _ _ _ _ _); discriminate.
    + intros msg Hraise. exfalso.
      assert (Hb : raises_builtin
                     (transcript <-? _get_transcript_for_contig (self s') results alt_ac;
                      tx_info <-? _get_transcript_info transcript;
                      OK {| TxInfo.hgnc := TxInfo.hgnc tx_info;
                            TxInfo.cds_start_i := TxInfo.cds_start_i tx_info;
                            TxInfo.cds_end_i := TxInfo.cds_end_i tx_info;
                            TxInfo.tx_ac := Some tx_ac;
                            TxInfo.alt_ac := Some alt_ac;
                            TxInfo.alt_aln_method := Some NCBI_ALN_METHOD |})%result)
        by builtin_steps.
      rewrite Hraise in Hb. exact Hb.
  - split; [discriminate |]. intros msg [= ->]. right.
    eapply Hlookup_error; [reflexivity | reflexivity].
Qed.

Lemma X14_unreachable_branches_witness :
  fst (get_tx_exons Example.archive_empty Example.tx_ac Example.contig38 NCBI_ALN_METHOD
         (run_calls Example.archive_empty
            [CallTxInfo Example.tx_ac Example.contig38 NCBI_ALN_METHOD]
            (initial_state Example.tark)))
  <> OK None.
Proof.
  apply (X14_unreachable_branches Example.ac_name_map Example.name_ac_map
           Example.archive_empty None Example.tark
           [CallTxInfo Example.tx_ac Example.contig38 NCBI_ALN_METHOD]
           Example.tx_ac Example.contig38 NCBI_ALN_METHOD).
  vm_compute. reflexivity.
Defined.

(** X15: [get_transcript_sequence] answers from the cache when the
    accession is cached: it returns the ["sequence"]["sequence"] member
    of the first record of the list, whatever its build, and issues no
    request. *)
Theorem X15_sequence_of_first_record
    (requests_get : list string -> string -> response)
    (ac : string) (s : state) (record : json) (rest : list json) (sequence seq : json) :
  transcript_results (self s) !! ac = Some (JList (record :: rest)) ->
  getitem record "sequence" = OK sequence ->
  getitem sequence "sequence" = OK seq ->
  get_transcript_sequence requests_get ac s = (OK seq, s).
Proof.
  intros Hcached Hsequence Hseq.
  unfold get_transcript_sequence, bind, lift.
  rewrite (get_transcript_results_hit _ _ _ _ Hcached).
  unfold transcript_sequence_of, rbind. cbn [truthy getitem0].
  rewrite Hsequence, Hseq. reflexivity.
Qed.

Lemma X15_sequence_of_first_record_witness :
  get_transcript_sequence Example.archive_not_found Example.tx_ac Example.with_sequence
  = (OK (JStr "ACGTAGGCCTTT"), Example.with_sequence).
Proof.
  apply (X15_sequence_of_first_record Example.archive_not_found Example.tx_ac
           Example.with_sequence Example.record_with_sequence []
           (JObj [("sequence", JStr "ACGTAGGCCTTT")])); vm_compute; reflexivity.
Defined.

(** *** Construction and the assembly directory *)

Lemma dict_get_set_eq {V} (k : string) (v : V) (d : list (string * V)) :
  dict_get k (dict_set k v d) = Some v.
Proof.
  induction d as [| [k' v'] d IH]; cbn; [rewrite String.eqb_refl; reflexivity |].
  destruct (String.eqb_spec k k') as [-> | Hne]; cbn.
  - rewrite String.eqb_refl. reflexivity.
  - destruct (String.eqb_spec k k'); [contradiction | exact IH].
Qed.

Lemma dict_get_set_ne {V} (k k' : string) (v : V) (d : list (string * V)) :
  k <> k' -> dict_get k (dict_set k' v d) = dict_get k d.
Proof.
  intros Hne. induction d as [| [k2 v2] d IH]; cbn.
  - destruct (String.eqb_spec k k'); [contradiction | reflexivity].
  - destruct (String.eqb_spec k' k2) as [-> | Hne2]; cbn.
    + destruct (String.eqb_spec k k2); [contradiction | reflexivity].
    + destruct (String.eqb_spec k k2); [reflexivity | exact IH].
Qed.

Lemma dict_get_None_keys {V} (k : string) (d : list (string * V)) :
  dict_get k d = None <-> ~ In k (List.map fst d).
Proof.
  induction d as [| [k' v'] d IH]; cbn; [tauto |].
  destruct (String.eqb_spec k k') as [-> | Hne]; [split; [discriminate | tauto] |].
  rewrite IH. split; [intros H [Heq | Hin]; [congruence | tauto] | tauto].
Qed.

Section Construction.
Variables get_ac_name_map get_name_ac_map : string -> result (gmap string string).

(** What the first loop of the constructor leaves in the two dicts. *)
Lemma load_assemblies_spec (assemblies : list string) :
  forall maps names maps' names',
    load_assemblies get_ac_name_map get_name_ac_map assemblies maps names = OK (maps', names') ->
    forall a,
      (In a assemblies ->
       exists m n, get_ac_name_map a = OK m /\ get_name_ac_map a = OK n
                   /\ dict_get a maps' = Some m /\ dict_get a names' = Some n)
      /\ (~ In a assemblies ->
          dict_get a maps' = dict_get a maps /\ dict_get a names' = dict_get a names).
Proof.
  induction assemblies as [| head rest IH]; intros maps names maps' names' Hload a.
  - injection Hload as <- <-. split; [intros [] | intros _; split; reflexivity].
  - cbn in Hload. unfold rbind in Hload.
    destruct (get_ac_name_map head) as [m |] eqn:Hm; [| discriminate].
    destruct (get_name_ac_map head) as [n |] eqn:Hn; [| discriminate].
    destruct (IH _ _ _ _ Hload a) as [Hin Hout].
    destruct (in_dec string_dec a rest) as [Hrest | Hrest].
    + split; [intros _; exact (Hin Hrest) | intros Hnot; exfalso; apply Hnot; right; exact Hrest].
    + destruct (Hout Hrest) as [Hmaps Hnames]. split.
      * intros [-> | Hbad]; [| contradiction].
        exists m, n. rewrite Hmaps, Hnames, !dict_get_set_eq. repeat split; assumption.
      * intros Hnot. assert (Hne : a <> head) by (intros ->; apply Hnot; left; reflexivity).
        rewrite Hmaps, Hnames, !dict_get_set_ne by exact Hne. split; reflexivity.
Qed.

Lemma load_assemblies_succeeds (assemblies : list string) :
  (forall a, In a assemblies ->
             (exists m, get_ac_name_map a = OK m) /\ (exists n, get_name_ac_map a = OK n)) ->
  forall maps names,
    exists loaded,
      load_assemblies get_ac_name_map get_name_ac_map assemblies maps names = OK loaded.
Proof.
  induction assemblies as [| head rest IH]; intros Hall maps names; [eexists; reflexivity |].
  destruct (Hall head (or_introl eq_refl)) as [[m Hm] [n Hn]].
  cbn. unfold rbind. rewrite Hm, Hn. apply IH. intros a Ha. apply Hall. right. exact Ha.
Qed.

Lemma init_loaded (assemblies : option (list string)) (p0 : provider) :
  __init__ get_ac_name_map get_name_ac_map assemblies = OK p0 ->
  load_assemblies get_ac_name_map get_name_ac_map (requested assemblies) [] []
  = OK (assembly_maps p0, name_to_assembly_maps p0).
Proof.
  unfold __init__, rbind, requested.
  destruct (load_assemblies _ _ _ _ _) as [[maps names] |]; [| discriminate].
  intros [= <-]. reflexivity.
Qed.

End Construction.

(** X16: the constructor succeeds exactly when both static directories
    are available for every requested assembly (the two reference
    assemblies when none is given); the provider then starts with an
    empty cache and the archive's base URL. *)
Theorem X16_construction
    (get_ac_name_map get_name_ac_map : string -> result (gmap string string))
    (assemblies : option (list string)) :
  ((forall a, In a (requested assemblies) ->
              (exists m, get_ac_name_map a = OK m) /\ (exists n, get_name_ac_map a = OK n))
   <-> exists p0, __init__ get_ac_name_map get_name_ac_map assemblies = OK p0)
  /\ (forall p0,
        __init__ get_ac_name_map get_name_ac_map assemblies = OK p0 ->
        transcript_results p0 = ∅ /\ base_url p0 = "https://tark.ensembl.org/api").
Proof.
  split.
  - split.
    + intros Hall.
      destruct (load_assemblies_succeeds get_ac_name_map get_name_ac_map
                  (requested assemblies) Hall [] []) as [loaded Hload].
      unfold __init__, rbind. fold (requested assemblies). rewrite Hload. eexists. reflexivity.
    + intros [p0 Hinit] a Ha.
      pose proof (init_loaded _ _ _ _ Hinit) as Hload.
      destruct (load_assemblies_spec _ _ _ _ _ _ _ Hload a) as [Hin _].
      destruct (Hin Ha) as (m & n & Hm & Hn & _). eauto.
  - intros p0 Hinit. split; [eapply init_cache_empty | eapply init_base_url]; exact Hinit.
Qed.

Lemma X16_construction_witness :
  (exists p0, __init__ Example.ac_name_map Example.name_ac_map None = OK p0)
  /\ ~ (exists p0, __init__ Example.ac_name_map Example.name_ac_map (Some ["GRCh38"; "T2T"])
                   = OK p0).
Proof.
  split.
  - destruct (X16_construction Example.ac_name_map Example.name_ac_map None) as [[Hok _] _].
    apply Hok. intros a [<- | [<- | []]]; split; eexists; reflexivity.
  - intros Hok.
    destruct (X16_construction Example.ac_name_map Example.name_ac_map
                (Some ["GRCh38"; "T2T"])) as [[_ Hall] _].
    destruct (Hall Hok "T2T" (or_intror (or_introl eq_refl))) as [[m Hm] _]. discriminate Hm.
Defined.

(** X17: on a constructed provider, after any calls, [get_assembly_map]
    returns for each requested assembly the accession directory it was
    loaded from, and raises the [ValueError] listing the configured
    assemblies for any other name. *)
Theorem X17_assembly_map
    (get_ac_name_map get_name_ac_map : string -> result (gmap string string))
    (requests_get : list string -> string -> response)
    (assemblies : option (list string)) (p0 : provider) (calls : list call)
    (assembly_name : string) :
  __init__ get_ac_name_map get_name_ac_map assemblies = OK p0 ->
  let p := self (run_calls requests_get calls (initial_state p0)) in
  (In assembly_name (requested assemblies) ->
   get_assembly_map p assembly_name = get_ac_name_map assembly_name)
  /\ (~ In assembly_name (requested assemblies) ->
      get_assembly_map p assembly_name
      = Raise (ValueError ("Assembly '" ++ assembly_name
                           ++ "' not supported. Supported assemblies: "
                           ++ join ", " (List.map fst (assembly_maps p))))).
Proof.
  intros Hinit p.
  assert (Hmaps : assembly_maps p = assembly_maps p0).
  { pose proof (run_calls_directory requests_get calls (initial_state p0)) as Hdir.
    injection Hdir as _ Hmaps _ _. exact Hmaps. }
  pose proof (init_loaded _ _ _ _ Hinit) as Hload.
  destruct (load_assemblies_spec _ _ _ _ _ _ _ Hload assembly_name) as [Hin Hout].
  unfold get_assembly_map. rewrite Hmaps. split.
  - intros Ha. destruct (Hin Ha) as (m & n & Hm & _ & Hget & _). rewrite Hget, Hm. reflexivity.
  - intros Ha. destruct (Hout Ha) as [Hget _]. rewrite Hget. reflexivity.
Qed.

Lemma X17_assembly_map_witness :
  get_assembly_map Example.tark "GRCh38" = Example.ac_name_map "GRCh38"
  /\ get_assembly_map Example.tark "GRCh36"
     = Raise (ValueError
                "Assembly 'GRCh36' not supported. Supported assemblies: GRCh37, GRCh38").
Proof.
  split.
  - apply (X17_assembly_map Example.ac_name_map Example.name_ac_map Example.archive None
             Example.tark [] "GRCh38"); [vm_compute; reflexivity |].
    right. left. reflexivity.
  - apply (X17_assembly_map Example.ac_name_map Example.name_ac_map Example.archive None
             Example.tark [] "GRCh36"); [vm_compute; reflexivity |].
    intros [H | [H | []]]; discriminate H.
Defined.

Lemma index_contigs_app (items more : list (string * gmap string string))
    (by_contig : gmap string string) :
  index_contigs (items ++ more) by_contig = index_contigs more (index_contigs items by_contig).
Proof.
  revert by_contig. induction items as [| [a m] items IH]; intros by_contig; [reflexivity |].
  cbn. apply IH.
Qed.

Lemma index_contigs_absent (items : list (string * gmap string string))
    (by_contig : gmap string string) (contig : string) :
  (forall a (m : gmap string string), (a, m) ∈ items -> m !! contig = None) ->
  index_contigs items by_contig !! contig = by_contig !! contig.
Proof.
  revert by_contig. induction items as [| [a m] items IH]; intros by_contig Hall; [reflexivity |].
  cbn. rewrite IH.
  - rewrite lookup_union_r; [reflexivity |].
    rewrite lookup_fmap, (Hall a m); [reflexivity | left].
  - intros a' m' Hin. apply (Hall a' m'). right. exact Hin.
Qed.

(** X18: when several configured assemblies have the same contig
    accession, the directory resolves it to the one configured last. *)
Theorem X18_last_assembly_wins
    (get_ac_name_map get_name_ac_map : string -> result (gmap string string))
    (requests_get : list string -> string -> response)
    (assemblies : option (list string)) (p0 : provider) (calls : list call)
    (before after : list (string * gmap string string))
    (assembly contig : string) (contig_map : gmap string string) :
  __init__ get_ac_name_map get_name_ac_map assemblies = OK p0 ->
  assembly_maps p0 = (before ++ (assembly, contig_map) :: after)%list ->
  is_Some (contig_map !! contig) ->
  (forall a (m : gmap string string), (a, m) ∈ after -> m !! contig = None) ->
  assembly_by_contig (self (run_calls requests_get calls (initial_state p0))) !! contig
  = Some assembly.
Proof.
  intros Hinit Hmaps [name Hname] Hafter.
  pose proof (run_calls_directory requests_get calls (initial_state p0)) as Hdir.
  injection Hdir as _ _ _ Hby. rewrite Hby.
  rewrite (init_assembly_by_contig _ _ _ _ Hinit), Hmaps, index_contigs_app.
  cbn [index_contigs]. rewrite (index_contigs_absent _ _ _ Hafter).
  apply lookup_union_Some_raw. left. rewrite lookup_fmap, Hname. reflexivity.
Qed.

Lemma X18_last_assembly_wins_witness :
  assembly_by_contig (self (run_calls Example.archive [] (initial_state Example.tark_shared)))
    !! "NC_012920.1" = Some "GRCh38".
Proof.
  apply (X18_last_assembly_wins Example.ac_name_map_shared Example.name_ac_map
           Example.archive None Example.tark_shared []
           [("GRCh37", {[ "NC_012920.1" := "MT"; "NC_000001.10" := "1" ]})] []
           "GRCh38" "NC_012920.1" {[ "NC_012920.1" := "MT"; "NC_000001.11" := "1" ]}).
  - vm_compute. reflexivity.
  - vm_compute. reflexivity.
  - vm_compute. eauto.
  - intros a m Hin. inversion Hin.
Defined.

(** X19: on a constructed provider, after any calls, the directory knows
    a contig exactly when some configured assembly has it, and the
    assembly it resolves the contig to is a configured assembly that has
    it. *)
Theorem X19_directory_sound_and_complete
    (get_ac_name_map get_name_ac_map : string -> result (gmap string string))
    (requests_get : list string -> string -> response)
    (assemblies : option (list string)) (p0 : provider) (calls : list call)
    (contig : string) :
  __init__ get_ac_name_map get_name_ac_map assemblies = OK p0 ->
  let p := self (run_calls requests_get calls (initial_state p0)) in
  (is_Some (assembly_by_contig p !! contig) <-> covered p contig)
  /\ (forall assembly,
        assembly_by_contig p !! contig = Some assembly -> configured p assembly contig).
Proof.
  intros Hinit p.
  pose proof (run_calls_directory requests_get calls (initial_state p0)) as Hdir.
  injection Hdir as _ Hmaps _ Hby. fold p in Hmaps, Hby.
  pose proof (init_assembly_by_contig _ _ _ _ Hinit) as Hindex.
  assert (Hsound : forall assembly,
             assembly_by_contig p !! contig = Some assembly -> configured p assembly contig).
  { intros assembly Hlookup. rewrite Hby, Hindex in Hlookup.
    destruct (index_contigs_Some _ _ _ _ Hlookup) as [Hempty | Hconf].
    - rewrite lookup_empty in Hempty. discriminate.
    - unfold configured. rewrite Hmaps. exact Hconf. }
  split; [| exact Hsound]. split.
  - intros [assembly Hlookup]. exists assembly. apply Hsound, Hlookup.
  - intros (assembly & m & Hin & Hsome).
    destruct (assembly_by_contig p !! contig) as [a |] eqn:Hlookup; [eauto |].
    rewrite Hby, Hindex in Hlookup. apply index_contigs_None in Hlookup as [_ Hnone].
    rewrite Hmaps in Hin. rewrite (Hnone _ _ Hin) in Hsome. exact Hsome.
Qed.

Lemma X19_directory_sound_and_complete_witness :
  configured Example.tark "GRCh38" Example.contig38.
Proof.
  destruct (X19_directory_sound_and_complete Example.ac_name_map Example.name_ac_map
              Example.archive None Example.tark [] Example.contig38) as [_ Hsound].
  - vm_compute. reflexivity.
  - apply (Hsound "GRCh38"). vm_compute. reflexivity.
Defined.

(** *** The gene search *)

Lemma gene_search_url_tark (gene : string) :
  gene_search_url "https://tark.ensembl.org/api" gene
  = ("https://tark.ensembl.org/api/transcript/search/?identifier_field=" ++ gene
     ++ "&expand=exons,genes,sequence")%string.
Proof.
  unfold gene_search_url.
  change (os_path_join "https://tark.ensembl.org/api" "transcript/search/?")
    with "https://tark.ensembl.org/api/transcript/search/?".
  cbn [join].
  change "https://tark.ensembl.org/api/transcript/search/?identifier_field="
    with ("https://tark.ensembl.org/api/transcript/search/?" ++ "identifier_field=")%string.
  change "&expand=exons,genes,sequence" with ("&" ++ "expand=exons,genes,sequence")%string.
  rewrite !string_app_assoc. reflexivity.
Qed.

Lemma get_tx_for_gene_eq
    (requests_get : list string -> string -> response) (gene : string) (s : state) :
  get_tx_for_gene requests_get gene s
  = let url := gene_search_url (base_url (self s)) gene in
    let s' := {| self := self s; requests_log := url :: requests_log s |} in
    match fst (_get_from_url requests_get url s) with
    | OK results => (tx_for_gene_of (self s) gene results, s')
    | Raise e => (Raise e, s')
    end.
Proof.
  unfold get_tx_for_gene, bind, gets, lift. cbn -[_get_from_url]. cbv zeta.
  pose proof (get_from_url_state requests_get
                (gene_search_url (base_url (self s)) gene) s) as Hstate.
  destruct (_get_from_url requests_get _ s) as [[results | e] s1]; cbn in Hstate |- *;
    subst s1; reflexivity.
Qed.

(** What the fetcher returns for a response that is not ok, and for a
    JSON response. *)
Lemma get_from_url_outcomes
    (requests_get : list string -> string -> response) (url : string) (s : state) :
  (ok (requests_get (requests_log s) url) = false ->
   fst (_get_from_url requests_get url s) = OK JNull)
  /\ (forall header,
        ok (requests_get (requests_log s) url) = true ->
        content_type (requests_get (requests_log s) url) = Some header ->
        contains "application/json" header = true ->
        fst (_get_from_url requests_get url s)
        = match json_body (requests_get (requests_log s) url) with
          | Some data => OK data
          | None => Raise JSONDecodeError
          end).
Proof.
  unfold _get_from_url, bind, http_get, ret, raise. cbn. split.
  - intros ->. reflexivity.
  - intros header -> -> ->. destruct (json_body _); reflexivity.
Qed.

(** X20: the gene search goes past the transcript cache.  When
    [get_tx_for_gene] is run it issues one request, for the search URL of
    the gene, whatever the cache holds, and it leaves the provider as it
    was: the records it is given are not stored, so a later lookup of a
    transcript it listed finds the cache as it was before the search. *)
Theorem X20_gene_search_bypasses_cache
    (requests_get : list string -> string -> response) (gene : string) (s : state) :
  let s' := snd (get_tx_for_gene requests_get gene s) in
  self s' = self s
  /\ requests_log s' = gene_search_url (base_url (self s)) gene :: requests_log s
  /\ (base_url (self s) = "https://tark.ensembl.org/api" ->
      gene_search_url (base_url (self s)) gene
      = ("https://tark.ensembl.org/api/transcript/search/?identifier_field=" ++ gene
         ++ "&expand=exons,genes,sequence")%string).
Proof.
  cbv zeta.
  assert (Hstate : snd (get_tx_for_gene requests_get gene s)
                   = {| self := self s;
                        requests_log := gene_search_url (base_url (self s)) gene
                                        :: requests_log s |}).
  { rewrite get_tx_for_gene_eq. cbv zeta.
    destruct (fst (_get_from_url requests_get _ s)); reflexivity. }
  rewrite Hstate. cbn [self requests_log].
  split; [reflexivity |]. split; [reflexivity |].
  intros ->. apply gene_search_url_tark.
Qed.

Lemma X20_gene_search_bypasses_cache_witness :
  self (snd (get_tx_for_gene Example.archive_gene "BRCA2" Example.after_lookup))
  = self Example.after_lookup
  /\ requests_log (snd (get_tx_for_gene Example.archive_gene "BRCA2" Example.after_lookup))
     = "https://tark.ensembl.org/api/transcript/search/?identifier_field=BRCA2&expand=exons,genes,sequence"
       :: requests_log Example.after_lookup
  /\ transcript_results
       (self (snd (get_tx_for_gene Example.archive_gene "BRCA2" Example.fresh)))
       !! Example.tx_ac = None.
Proof.
  destruct (X20_gene_search_bypasses_cache Example.archive_gene "BRCA2" Example.after_lookup)
    as (Hself & Hlog & Hurl).
  destruct (X20_gene_search_bypasses_cache Example.archive_gene "BRCA2" Example.fresh)
    as (Hfresh & _).
  split; [exact Hself |]. split.
  - rewrite Hlog, (Hurl eq_refl). reflexivity.
  - rewrite Hfresh. reflexivity.
Defined.

(** X21: the gene search returns the empty list, without an error, when
    the response is not ok and when the archive answers with an empty or
    null JSON value. *)
Theorem X21_gene_search_without_data
    (requests_get : list string -> string -> response) (gene : string) (s : state) :
  let response := requests_get (requests_log s) (gene_search_url (base_url (self s)) gene) in
  (ok response = false -> fst (get_tx_for_gene requests_get gene s) = OK [])
  /\ (forall header data,
        ok response = true ->
        content_type response = Some header ->
        contains "application/json" header = true ->
        json_body response = Some data ->
        truthy data = false ->
        fst (get_tx_for_gene requests_get gene s) = OK []).
Proof.
  cbv zeta. rewrite get_tx_for_gene_eq. cbv zeta.
  destruct (get_from_url_outcomes requests_get (gene_search_url (base_url (self s)) gene) s)
    as [Hnot_ok Hjson].
  split.
  - intros Hok. rewrite (Hnot_ok Hok). reflexivity.
  - intros header data Hok Hheader Hcontains Hbody Hfalsy.
    rewrite (Hjson header Hok Hheader Hcontains), Hbody. cbn [fst].
    unfold tx_for_gene_of. rewrite Hfalsy. reflexivity.
Qed.

Lemma X21_gene_search_without_data_witness :
  fst (get_tx_for_gene Example.archive_not_found "BRCA2" Example.fresh) = OK [].
Proof.
  apply (X21_gene_search_without_data Example.archive_not_found "BRCA2" Example.fresh).
  reflexivity.
Defined.

Lemma dict_get_In {V} (k : string) (v : V) (d : list (string * V)) :
  dict_get k d = Some v -> (k, v) ∈ d.
Proof.
  induction d as [| [k' v'] d IH]; cbn; [discriminate |].
  destruct (String.eqb_spec k k') as [-> | Hne].
  - intros [= ->]. left.
  - intros H. right. apply IH, H.
Qed.

(** X22: the loop of the gene search looks the contig up under the fixed
    name "loc_region" in the name directory of the record's assembly.
    On a provider whose name directories have no entry of that name, the
    search raises for every record it is given: whenever it returns, the
    list is empty. *)
Theorem X22_gene_search_needs_loc_region
    (requests_get : list string -> string -> response) (gene : string) (s : state)
    (tx_list : list TxInfo.t) :
  (forall a (m : gmap string string),
      (a, m) ∈ name_to_assembly_maps (self s) -> m !! "loc_region" = None) ->
  fst (get_tx_for_gene requests_get gene s) = OK tx_list ->
  tx_list = [].
Proof.
  intros Hnames. rewrite get_tx_for_gene_eq. cbv zeta.
  destruct (fst (_get_from_url requests_get _ s)) as [results | e]; [| discriminate].
  cbn [fst]. unfold tx_for_gene_of, rbind.
  destruct (truthy results); [| intros [= <-]; reflexivity].
  destruct (iter results) as [[| transcript rest] |]; [intros [= <-]; reflexivity | | discriminate].
  cbn [gene_transcripts]. unfold rbind, gene_transcript, rbind.
  destruct (_get_cds_start_end transcript); [| discriminate].
  destruct (getitem transcript "assembly") as [assembly |]; [| discriminate].
  unfold dict_getitem.
  destruct assembly as [| b | n | k | l | kvs]; try discriminate.
  destruct (dict_get k (name_to_assembly_maps (self s))) as [m |] eqn:Hget; [| discriminate].
  rewrite (Hnames k m (dict_get_In _ _ _ Hget)). discriminate.
Qed.

Lemma X22_gene_search_needs_loc_region_witness :
  fst (get_tx_for_gene Example.archive_not_found "BRCA2" Example.fresh) = OK []
  /\ @nil TxInfo.t = [].
Proof.
  split; [reflexivity |].
  apply (X22_gene_search_needs_loc_region Example.archive_not_found "BRCA2" Example.fresh []).
  - intros a m Hin. apply list_elem_of_In in Hin.
    destruct Hin as [[= <- <-] | [[= <- <-] | []]]; vm_compute; reflexivity.
  - reflexivity.
Defined.

(** On the mocked directories, which have no such entry, a search that
    finds a record raises [KeyError]. *)
Example gene_search_key_error :
  fst (get_tx_for_gene Example.archive_gene "BRCA2" Example.fresh)
  = Raise (KeyError "loc_region").
Proof. vm_compute. reflexivity. Qed.

(** The gene search on directories that do have a "loc_region" entry. *)
Example gene_search_example :
  fst (get_tx_for_gene Example.archive_gene "BRCA2" (initial_state Example.tark_region))
  = OK [ {| TxInfo.hgnc := JStr "BRCA2";
            TxInfo.cds_start_i := Some 5;
            TxInfo.cds_end_i := Some 147;
            TxInfo.tx_ac := Some "ENST00000380152.7";
            TxInfo.alt_ac := Some "NC_000013.11";
            TxInfo.alt_aln_method := Some "splign" |} ].
Proof. vm_compute. reflexivity. Qed.
